(** * eBay price-validation assistant: the tool-calling loop of [app.py]

    A shallow embedding of [get_products], [call_functions], [process_query]
    and the module-level start-up code of [app.py], followed by the
    properties of the specification that concern them.

    The program talks to three outside parties: the process environment
    (two variables), the search provider (one HTTP GET per search) and the
    conversation engine (threads, runs, tool outputs).  Their answers are
    collected in a [World]; the program's own state is the trace of the
    calls it has made together with two cursors saying how many HTTP
    requests and how many polls the world has already answered. *)

From Stdlib Require Import String Ascii List ZArith Lia Bool DecimalString.
Import ListNotations.
Open Scope string_scope.
#[local] Set Warnings "-register-all".

(** ** Python values *)

(** Values produced by a JSON decoder.  A decoded object is a [dict]; it is
    kept as an association list with the first binding of a key being the
    one [dict] lookups see. *)
Inductive json : Type :=
  | JNull
  | JBool (b : bool)
  | JInt (z : Z)
  | JFloat (literal : string)
  | JStr (s : string)
  | JArr (items : list json)
  | JObj (fields : list (string * json)).

(** The exception classes the program raises, catches or lets escape.
    [RequestException] stands for [requests.RequestException] and all its
    subclasses; [JSONDecodeError] is [json.JSONDecodeError], a subclass of
    [ValueError]. *)
Inductive exn : Type :=
  | RequestException (msg : string)
  | ValueError (msg : string)
  | JSONDecodeError (msg : string)
  | KeyError (key : string)
  | TypeError (msg : string)
  | AttributeError (msg : string)
  | IndexError (msg : string)
  | EnvironmentError (msg : string)
  | LibraryError (msg : string).


(** Library functions whose code is not part of the repository. *)
Class PyLib : Type := {
  (** [json.loads] on a [str]: the decoded value, or the message of the
      [JSONDecodeError] it raises. *)
  json_loads : string -> string + json;
  (** [str(v)] for a float, a list or a dict. *)
  py_str_other : json -> string;
  (** [OpenAI(api_key=...)]: [Some e] when the constructor raises. *)
  OpenAI_new : option string -> option exn;
  (** Whether a slice is hashable (Python 3.12 and later): it decides
      which exception [d[:3]] raises on a [dict]. *)
  slices_hashable : bool
}.

Definition nl : string := String (ascii_of_nat 10) EmptyString.

Fixpoint lookup (k : string) (d : list (string * json)) : option json :=
  match d with
  | [] => None
  | (k', v) :: rest => if String.eqb k k' then Some v else lookup k rest
  end.

(** [v.get(key, default)]: only a [dict] has the method. *)
Definition py_get (v : json) (key : string) (default : json) : exn + json :=
  match v with
  | JObj d => inr (match lookup key d with Some x => x | None => default end)
  | _ => inl (AttributeError "object has no attribute 'get'")
  end.

(** [v[key]] with a [str] key. *)
Definition py_item (v : json) (key : string) : exn + json :=
  match v with
  | JObj d => match lookup key d with
              | Some x => inr x
              | None => inl (KeyError key)
              end
  | _ => inl (TypeError "indices must be integers or object is not subscriptable")
  end.

Fixpoint prefix3 (n : nat) (s : string) : string :=
  match n, s with
  | S n', String c s' => String c (prefix3 n' s')
  | _, _ => EmptyString
  end.

(** [v[:3]].  On a [dict] the slice is looked up as a key: where slices
    are hashable the lookup misses and raises [KeyError], elsewhere
    hashing the slice raises [TypeError]. *)
Definition py_slice3 `{PyLib} (v : json) : exn + json :=
  match v with
  | JArr l => inr (JArr (firstn 3 l))
  | JStr s => inr (JStr (prefix3 3 s))
  | JObj _ =>
    inl (if slices_hashable then KeyError "slice(None, 3, None)"
         else TypeError "unhashable type: 'slice'")
  | _ => inl (TypeError "object is not subscriptable")
  end.

Fixpoint chars (s : string) : list json :=
  match s with
  | EmptyString => []
  | String c s' => JStr (String c EmptyString) :: chars s'
  end.

(** The items a [for] loop visits. *)
Definition py_iter (v : json) : exn + list json :=
  match v with
  | JArr l => inr l
  | JStr s => inr (chars s)
  | JObj d => inr (map (fun kv => JStr (fst kv)) d)
  | _ => inl (TypeError "object is not iterable")
  end.

(** What an f-string placeholder [{v}] expands to. *)
Definition fmt `{PyLib} (v : json) : string :=
  match v with
  | JStr s => s
  | JNull => "None"
  | JBool true => "True"
  | JBool false => "False"
  | JInt z => NilZero.string_of_int (Z.to_int z)
  | _ => py_str_other v
  end.

(** [if not s] for an optional [str]: [None] and the empty string are
    falsy. *)
Definition truthy (s : option string) : bool :=
  match s with
  | Some (String _ _) => true
  | _ => false
  end.

(** ** The outside world *)

Record response : Type := {
  status_code : Z;
  reason : string;
  url : string;
  (** [response.json()]: [inl msg] when the body does not decode, which
      [requests] reports as its own [JSONDecodeError], a
      [RequestException]. *)
  json_body : string + json
}.

Record tool_call : Type := {
  tc_id : string;
  tc_function_name : string;
  tc_function_arguments : string
}.

Record tool_output : Type := {
  tool_call_id : string;
  output : option string
}.

Record run : Type := {
  status : string;
  (** [required_action.submit_tool_outputs.tool_calls], when there is a
      required action. *)
  required_action : option (list tool_call)
}.

Inductive content_block : Type :=
  | TextBlock (value : string)
  | ImageFileBlock (file_id : string).

Record message : Type := { content : list content_block }.

Record World : Type := {
  env_OPENAI_API_KEY : option string;
  env_SERPAPI : option string;
  (** answer to the k-th HTTP GET, given its query parameters: a
      [RequestException] message or a response *)
  requests_get : nat -> list (string * json) -> string + response;
  assistants_create : string;
  threads_create : string;
  runs_create : string;
  (** answer to the k-th poll of the run *)
  runs_retrieve : nat -> run;
  (** the thread's messages, newest first *)
  messages_list : list message
}.

(** Calls that leave the process. *)
Inductive event : Type :=
  | Print (msg : string)
  | HttpGet (target : string) (params : list (string * json))
  | AssistantsCreate (name : string)
  | ThreadsCreate
  | MessagesCreate (thread_id role text : string)
  | RunsCreate (thread_id assistant_id instructions : string)
  | Sleep (milliseconds : Z)
  | RunsRetrieve (thread_id run_id : string) (observed : string)
  | SubmitToolOutputs (thread_id run_id : string) (tool_outputs : list tool_output)
  | MessagesList (thread_id : string)
  | Launch.

Record State : Type := {
  trace : list event;
  requested : nat;
  polled : nat
}.

Definition initial : State := {| trace := []; requested := 0; polled := 0 |}.

(** ** Computations: state, exceptions and a poll loop that may still run *)

Inductive outcome (A : Type) : Type :=
  | Returned (a : A)
  | Raised (e : exn)
  | Running.
Arguments Returned {A} a.
Arguments Raised {A} e.
Arguments Running {A}.

Definition M (A : Type) : Type := State -> outcome A * State.

Definition ret {A} (a : A) : M A := fun st => (Returned a, st).
Definition raise {A} (e : exn) : M A := fun st => (Raised e, st).
Definition bind {A B} (c : M A) (k : A -> M B) : M B :=
  fun st =>
    match c st with
    | (Returned a, st') => k a st'
    | (Raised e, st') => (Raised e, st')
    | (Running, st') => (Running, st')
    end.
Definition lift {A} (r : exn + A) : M A :=
  match r with
  | inl e => raise e
  | inr a => ret a
  end.
Definition emit (e : event) : M unit :=
  fun st => (Returned tt, {| trace := trace st ++ [e];
                            requested := requested st;
                            polled := polled st |}).

(** [try: body  except requests.RequestException as e: handler]. *)
Definition try_except_RequestException {A} (body : M A) (handler : string -> M A) : M A :=
  fun st =>
    match body st with
    | (Raised (RequestException msg), st') => handler msg st'
    | r => r
    end.

Declare Scope py_scope.
Delimit Scope py_scope with py.
Notation "x <- c ;; k" := (bind c (fun x => k))
  (at level 61, c at next level, right associativity) : py_scope.
Notation "c ;; k" := (bind c (fun _ => k))
  (at level 61, right associativity) : py_scope.
Open Scope py_scope.

Section Program.

Context `{PyLib}.
Variable w : World.

(** ** Marketplace search: [get_products] *)

Definition print (msg : string) : M unit := emit (Print msg).

(** [requests.get]: the world answers with a response or with a
    [RequestException].  An exception of another class raised before
    anything is sent (an encoding error on the query) has no counterpart
    here. *)
Definition http_get (target : string) (params : list (string * json)) : M response :=
  fun st =>
    let st' := {| trace := trace st ++ [HttpGet target params];
                  requested := S (requested st);
                  polled := polled st |} in
    match requests_get w (requested st) params with
    | inl msg => (Raised (RequestException msg), st')
    | inr r => (Returned r, st')
    end.

(** [response.raise_for_status()] of [requests]. *)
Definition raise_for_status (r : response) : M unit :=
  let code := NilZero.string_of_int (Z.to_int (status_code r)) in
  if (400 <=? status_code r)%Z && (status_code r <? 500)%Z then
    raise (RequestException
             (code ++ " Client Error: " ++ reason r ++ " for url: " ++ url r))
  else if (500 <=? status_code r)%Z && (status_code r <? 600)%Z then
    raise (RequestException
             (code ++ " Server Error: " ++ reason r ++ " for url: " ++ url r))
  else ret tt.

Definition response_json (r : response) : M json :=
  match json_body r with
  | inl msg => raise (RequestException msg)
  | inr data => ret data
  end.

(** One pass through the body of [for result in top_3_results]. *)
Definition render_step (markdown_output : string) (result : json) : exn + string :=
  match py_get result "title" JNull with
  | inl e => inl e
  | inr title =>
    match py_get result "price" (JObj []) with
    | inl e => inl e
    | inr price_obj =>
      match py_get price_obj "raw" (JStr "N/A") with
      | inl e => inl e
      | inr price =>
        match py_get result "link" JNull with
        | inl e => inl e
        | inr link =>
          match py_get result "thumbnail" JNull with
          | inl e => inl e
          | inr image =>
            let markdown_output :=
              markdown_output ++ ("- **Title:** [" ++ fmt title ++ "](" ++ fmt link ++ ")" ++ nl) in
            let markdown_output :=
              markdown_output ++ ("  - **Price:** " ++ fmt price ++ nl) in
            let markdown_output :=
              markdown_output ++ ("  - **Link:** [View on eBay](" ++ fmt link ++ ")" ++ nl) in
            let markdown_output :=
              markdown_output ++ ("  - **Image:** ![Image](" ++ fmt image ++ ")" ++ nl ++ nl) in
            inr markdown_output
          end
        end
      end
    end
  end.

Fixpoint render_loop (results : list json) (markdown_output : string) : exn + string :=
  match results with
  | [] => inr markdown_output
  | result :: rest =>
    match render_step markdown_output result with
    | inl e => inl e
    | inr markdown_output' => render_loop rest markdown_output'
    end
  end.

Definition base_url : string := "https://serpapi.com/search.json".

Definition search_params (query : json) (api_key : string) : list (string * json) :=
  [ ("engine", JStr "ebay");
    ("_nkw", query);
    ("ebay_domain", JStr "ebay.com");
    ("api_key", JStr api_key) ].

Definition get_products (query : json) : M (option string) :=
  match env_SERPAPI w with
  | Some (String c k as api_key) =>
    try_except_RequestException
      (response <- http_get base_url (search_params query api_key) ;;
       raise_for_status response ;;
       data <- response_json response ;;
       organic_results <- lift (py_get data "organic_results" (JArr [])) ;;
       top_3_results <- lift (py_slice3 organic_results) ;;
       results <- lift (py_iter top_3_results) ;;
       markdown_output <- lift (render_loop results "") ;;
       ret (Some markdown_output))
      (fun e =>
       print ("Request failed: " ++ e) ;;
       ret None)
  | _ =>
    print "SERPAPI environment variable is not set." ;;
    ret None
  end.

(** ** Tool dispatcher: [call_functions] *)

(** The module-level objects [conversation_thread] and
    [ebay_price_validation_assistant], which every query shares. *)
Record Session : Type := {
  conversation_thread : string;
  ebay_price_validation_assistant : string
}.

Variable session : Session.

(** One pass through the body of [for action in required_actions["tool_calls"]]. *)
Definition dispatch_step (tool_outputs : list tool_output) (action : tool_call)
  : M (list tool_output) :=
  let func_name := tc_function_name action in
  arguments <- match json_loads (tc_function_arguments action) with
               | inl msg => raise (JSONDecodeError msg)
               | inr v => ret v
               end ;;
  if String.eqb func_name "search_ebay" then
    query <- lift (py_item arguments "query") ;;
    output <- get_products query ;;
    ret (tool_outputs ++ [ {| tool_call_id := tc_id action; output := output |} ])%list
  else
    raise (ValueError ("Unknown function: " ++ func_name)).

Fixpoint dispatch_loop (actions : list tool_call) (tool_outputs : list tool_output)
  : M (list tool_output) :=
  match actions with
  | [] => ret tool_outputs
  | action :: rest =>
    tool_outputs' <- dispatch_step tool_outputs action ;;
    dispatch_loop rest tool_outputs'
  end.

Definition submit_tool_outputs (run_id : string) (tool_outputs : list tool_output) : M unit :=
  emit (SubmitToolOutputs (conversation_thread session) run_id tool_outputs).

Definition call_functions (required_actions : list tool_call) (run_id : string) : M unit :=
  tool_outputs <- dispatch_loop required_actions [] ;;
  submit_tool_outputs run_id tool_outputs.

(** ** Conversation session: [process_query] *)

(** [time.sleep(0.5)] followed by [runs.retrieve]. *)
Definition poll (run_id : string) : M run :=
  fun st =>
    let r := runs_retrieve w (polled st) in
    (Returned r,
     {| trace := trace st ++ [Sleep 500;
                              RunsRetrieve (conversation_thread session) run_id (status r)];
        requested := requested st;
        polled := S (polled st) |}).

(** [response_messages.data[0].content[0].text.value]. *)
Definition final_response_text (data : list message) : exn + string :=
  match data with
  | [] => inl (IndexError "list index out of range")
  | final_response :: _ =>
    match content final_response with
    | [] => inl (IndexError "list index out of range")
    | TextBlock value :: _ => inr value
    | ImageFileBlock _ :: _ => inl (AttributeError "object has no attribute 'text'")
    end
  end.

(** The [while True] loop; [fuel] bounds the number of polls the model
    follows, and [Running] says the loop is still polling after them. *)
Fixpoint poll_loop (fuel : nat) (run_id : string) : M string :=
  match fuel with
  | O => fun st => (Running, st)
  | S fuel' =>
    response_status <- poll run_id ;;
    (if String.eqb (status response_status) "requires_action" then
       match required_action response_status with
       | Some tool_calls => call_functions tool_calls run_id
       | None => raise (AttributeError "'NoneType' object has no attribute 'submit_tool_outputs'")
       end
     else ret tt) ;;
    if String.eqb (status response_status) "completed" then
      emit (MessagesList (conversation_thread session)) ;;
      lift (final_response_text (messages_list w))
    else
      poll_loop fuel' run_id
  end.

Definition process_query (user_query : string) (interaction_history : list (string * string))
  (fuel : nat) : M string :=
  emit (MessagesCreate (conversation_thread session) "user" user_query) ;;
  emit (RunsCreate (conversation_thread session)
                   (ebay_price_validation_assistant session)
                   "The user needs help validating the price of an item on eBay.") ;;
  poll_loop fuel (runs_create w).

End Program.

(** ** Module start-up *)

Section Startup.

Context `{PyLib}.
Variable w : World.

(** The statements of the module executed on import, up to the definition
    of the user interface: the credential check, then the creation of the
    assistant and of the conversation thread. *)
Definition module_init : M Session :=
  let api_key := env_OPENAI_API_KEY w in
  match OpenAI_new api_key with
  | Some e => raise e
  | None =>
    if negb (truthy api_key) then
      raise (EnvironmentError "API key for OpenAI not found in environment variables.")
    else
      emit (AssistantsCreate "eBay Price Validator") ;;
      emit ThreadsCreate ;;
      ret {| conversation_thread := threads_create w;
             ebay_price_validation_assistant := assistants_create w |}
  end.

(** Running the module as a script: [demo.launch()] starts serving, and
    queries reach [process_query] from then on. *)
Definition main (user_query : string) (fuel : nat) : M string :=
  session <- module_init ;;
  emit Launch ;;
  process_query w session user_query [] fuel.

End Startup.

(** ** Vocabulary of the specification *)

(** The static registry of the dispatcher has one entry. *)
Definition registered (action : tool_call) : bool :=
  String.eqb (tc_function_name action) "search_ebay".

(** The batches handed to [submit_tool_outputs] along a trace, in order,
    each with the thread and the run it was tagged with. *)
Fixpoint submissions (tr : list event) : list (string * string * list tool_output) :=
  match tr with
  | [] => []
  | SubmitToolOutputs thread_id run_id tool_outputs :: rest =>
    (thread_id, run_id, tool_outputs) :: submissions rest
  | _ :: rest => submissions rest
  end.

Definition raises {A} (r : outcome A * State) : bool :=
  match fst r with
  | Raised _ => true
  | _ => false
  end.

(** The search provider is out of reach for the request about to be made:
    the transport fails or the answer carries an HTTP error status. *)
Definition request_fails (w : World) (st : State) (params : list (string * json)) : bool :=
  match requests_get w (requested st) params with
  | inl _ => true
  | inr r => (400 <=? status_code r)%Z && (status_code r <? 600)%Z
  end.

(** The text block of one listing, as the specification lays it out. *)
Definition listing_block (title price link thumbnail : string) : string :=
  "- **Title:** [" ++ title ++ "](" ++ link ++ ")" ++ nl ++
  "  - **Price:** " ++ price ++ nl ++
  "  - **Link:** [View on eBay](" ++ link ++ ")" ++ nl ++
  "  - **Image:** ![Image](" ++ thumbnail ++ ")" ++ nl ++ nl.

Definition field `{PyLib} (name : string) (d : list (string * json)) : string :=
  match lookup name d with
  | Some v => fmt v
  | None => "None"
  end.

(** The price of a listing: its [price.raw], or the literal N/A. *)
Definition price_text `{PyLib} (d : list (string * json)) : string :=
  match lookup "price" d with
  | Some (JObj p) =>
    match lookup "raw" p with
    | Some v => fmt v
    | None => "N/A"
    end
  | _ => "N/A"
  end.

Definition entry_block `{PyLib} (entry : json) : string :=
  match entry with
  | JObj d => listing_block (field "title" d) (price_text d) (field "link" d) (field "thumbnail" d)
  | _ => ""
  end.

Definition join (blocks : list string) : string := fold_right String.append "" blocks.

(** An entry of the provider's result list as the provider documents it:
    an object whose price, when present, is an object. *)
Definition entry_ok (entry : json) : bool :=
  match entry with
  | JObj d =>
    match lookup "price" d with
    | None | Some (JObj _) => true
    | Some _ => false
    end
  | _ => false
  end.

(** The provider's result list in a decoded answer; an answer without the
    key has no results. *)
Definition organic_results (data : list (string * json)) : option (list json) :=
  match lookup "organic_results" data with
  | None => Some []
  | Some (JArr entries) => Some entries
  | Some _ => None
  end.

(** A successful search: the credential is set, the request about to be
    made is answered without an HTTP error status, and the body decodes to
    an object whose result list holds [entries]. *)
Definition search_succeeds (w : World) (st : State) (query : json) (entries : list json) : Prop :=
  exists c k r data,
    env_SERPAPI w = Some (String c k) /\
    requests_get w (requested st) (search_params query (String c k)) = inr r /\
    ((400 <=? status_code r)%Z && (status_code r <? 600)%Z = false) /\
    json_body r = inr (JObj data) /\
    organic_results data = Some entries.

(** The search provider cannot serve the request about to be made: the
    credential is missing (or empty), or the request fails. *)
Definition search_unavailable (w : World) (st : State) (query : json) : bool :=
  match env_SERPAPI w with
  | Some (String c k) => request_fails w st (search_params query (String c k))
  | _ => true
  end.

(** No poll of the run ever observes the status [completed]. *)
Definition never_completed (w : World) : Prop :=
  forall k, String.eqb (status (runs_retrieve w k)) "completed" = false.

(** Whenever a poll observes [requires_action], the dispatch it triggers
    does not raise. *)
Definition dispatch_never_raises `{PyLib} (w : World) (session : Session) : Prop :=
  forall k st,
    String.eqb (status (runs_retrieve w k)) "requires_action" = true ->
    exists tool_calls,
      required_action (runs_retrieve w k) = Some tool_calls /\
      raises (call_functions w session tool_calls (runs_create w) st) = false.

(** ** Concrete runs *)

Definition dq : string := String (ascii_of_nat 34) EmptyString.

(** The arguments string the engine sends for a search. *)
Definition query_arguments (q : string) : string :=
  "{" ++ dq ++ "query" ++ dq ++ ": " ++ dq ++ q ++ dq ++ "}".

(** Library behaviour on the inputs the concrete runs below use:
    [json.loads] on the two argument strings that occur in them (anything
    else in them is the empty string, which does not decode), [str] on a
    float, the constructor of the client, which refuses a missing key, and
    an interpreter with hashable slices. *)
Definition table_lib : PyLib := {|
  json_loads := fun s =>
    if String.eqb s (query_arguments "gladiator sandals") then
      inr (JObj [("query", JStr "gladiator sandals")])
    else if String.eqb s "{}" then inr (JObj [])
    else inl "Expecting value: line 1 column 1 (char 0)";
  py_str_other := fun v =>
    match v with
    | JFloat literal => literal
    | _ => ""
    end;
  OpenAI_new := fun api_key =>
    match api_key with
    | None => Some (LibraryError "The api_key client option must be set")
    | Some _ => None
    end;
  slices_hashable := true
|}.

Definition the_session : Session :=
  {| conversation_thread := "thread_1"; ebay_price_validation_assistant := "asst_1" |}.

Definition listing (title price link thumbnail : string) : json :=
  JObj [ ("title", JStr title);
         ("price", JObj [("raw", JStr price)]);
         ("link", JStr link);
         ("thumbnail", JStr thumbnail) ].

(** Five results for one query; the fourth has no price. *)
Definition five_results : list json :=
  [ listing "Sandals A" "$10.00" "https://ebay.com/a" "https://img/a.jpg";
    JObj [ ("title", JStr "Sandals B");
           ("link", JStr "https://ebay.com/b");
           ("thumbnail", JStr "https://img/b.jpg") ];
    listing "Sandals C" "$30.00" "https://ebay.com/c" "https://img/c.jpg";
    listing "Sandals D" "$40.00" "https://ebay.com/d" "https://img/d.jpg";
    listing "Sandals E" "$50.00" "https://ebay.com/e" "https://img/e.jpg" ].

Definition ok_response (data : json) : response :=
  {| status_code := 200; reason := "OK"; url := base_url; json_body := inr data |}.

Definition search_call (call_id : string) : tool_call :=
  {| tc_id := call_id;
     tc_function_name := "search_ebay";
     tc_function_arguments := query_arguments "gladiator sandals" |}.

Definition nth_run (runs : list run) (k : nat) : run :=
  nth k runs {| status := "completed"; required_action := None |}.

(** The scenario of the specification: the run is queued, in progress,
    asks for one search, is in progress again and completes. *)
Definition sandals_world : World := {|
  env_OPENAI_API_KEY := Some "sk-test";
  env_SERPAPI := Some "serp-test";
  requests_get := fun _ _ => inr (ok_response (JObj [("organic_results", JArr five_results)]));
  assistants_create := "asst_1";
  threads_create := "thread_1";
  runs_create := "run_1";
  runs_retrieve := nth_run
    [ {| status := "queued"; required_action := None |};
      {| status := "in_progress"; required_action := None |};
      {| status := "requires_action"; required_action := Some [search_call "call_1"] |};
      {| status := "in_progress"; required_action := None |};
      {| status := "completed"; required_action := None |} ];
  messages_list := [ {| content := [TextBlock "Similar sandals sell for $10 to $30."] |} ]
|}.

(** No search credential, and a run that fails after asking for two
    searches. *)
Definition offline_world : World := {|
  env_OPENAI_API_KEY := Some "sk-test";
  env_SERPAPI := None;
  requests_get := fun _ _ => inl "Connection refused";
  assistants_create := "asst_1";
  threads_create := "thread_1";
  runs_create := "run_1";
  runs_retrieve := fun k =>
    match k with
    | O => {| status := "requires_action";
              required_action := Some [search_call "call_1"; search_call "call_2"] |}
    | _ => {| status := "failed"; required_action := None |}
    end;
  messages_list := []
|}.

(** The search credential is set but the provider cannot be reached. *)
Definition unreachable_world : World := {|
  env_OPENAI_API_KEY := Some "sk-test";
  env_SERPAPI := Some "serp-test";
  requests_get := fun _ _ => inl "Connection refused";
  assistants_create := "asst_1";
  threads_create := "thread_1";
  runs_create := "run_1";
  runs_retrieve := fun _ => {| status := "expired"; required_action := None |};
  messages_list := []
|}.

(** The engine asks for a search and for a function that is not
    registered, and never reports completion. *)
Definition unknown_tool_world : World := {|
  env_OPENAI_API_KEY := Some "sk-test";
  env_SERPAPI := Some "serp-test";
  requests_get := fun _ _ => inr (ok_response (JObj [("organic_results", JArr five_results)]));
  assistants_create := "asst_1";
  threads_create := "thread_1";
  runs_create := "run_1";
  runs_retrieve := fun _ =>
    {| status := "requires_action";
       required_action := Some [ search_call "call_1";
                                 {| tc_id := "call_2";
                                    tc_function_name := "search_amazon";
                                    tc_function_arguments := "{}" |} ] |};
  messages_list := []
|}.

(** The process starts without the conversation credential. *)
Definition keyless_world : World := {|
  env_OPENAI_API_KEY := None;
  env_SERPAPI := Some "serp-test";
  requests_get := fun _ _ => inl "Connection refused";
  assistants_create := "asst_1";
  threads_create := "thread_1";
  runs_create := "run_1";
  runs_retrieve := fun _ => {| status := "completed"; required_action := None |};
  messages_list := [ {| content := [TextBlock "Hello"] |} ]
|}.

(** ** Image upload: [analyse_image] and [upload_file] *)

(** The upload path shares nothing with the conversation thread; it has a
    file system and a vision model on the outside, and its own trace. *)
Module Upload.

Record chat_choice : Type := { message_content : option string }.

(** What [upload_file] can end with instead of a result: the [OSError]
    of [open], or an exception of the classes above. *)
Inductive error : Type :=
  | OSError (msg : string)
  | Exn (e : exn).

Inductive vision_event : Type :=
  | OpenRead (path : string)
  | ChatCompletionsCreate (model prompt image_url : string) (max_tokens : Z).

Record Outside : Type := {
  (** [open(path, 'rb').read()]: the bytes, or the message of the
      [OSError]. *)
  read_bytes : string -> string + list Byte.byte;
  (** [base64.b64encode(content).decode('utf-8')]. *)
  b64encode : list Byte.byte -> string;
  (** [response.choices] of the completion requested for an image. *)
  chat_completions_create : string -> list chat_choice
}.

Section Functions.

Variable o : Outside.

Definition prompt : string :=
  "Provide me with a list of all products displayed in the image and suggest search terms I can use to find these products on eBay.".

Definition analyse_image (base64_image : string) (tr : list vision_event)
  : (exn + option string) * list vision_event :=
  let image_url := "data:image/png;base64," ++ base64_image in
  let tr' := (tr ++ [ChatCompletionsCreate "gpt-4-vision-preview" prompt image_url 300])%list in
  match chat_completions_create o image_url with
  | [] => (inl (IndexError "list index out of range"), tr')
  | choice :: _ => (inr (message_content choice), tr')
  end.

(** [file_name] is [file.name] of the uploaded file; the [with] statement
    rebinds [file] to the opened file, whose [name] is the same path. *)
Definition upload_file (file_name : string) (tr : list vision_event)
  : (error + string * string) * list vision_event :=
  let file_path := file_name in
  let tr1 := (tr ++ [OpenRead file_path])%list in
  match read_bytes o file_path with
  | inl msg => (inl (OSError msg), tr1)
  | inr file_content =>
    let encoded_content := b64encode o file_content in
    match analyse_image encoded_content tr1 with
    | (inl e, tr2) => (inl (Exn e), tr2)
    | (inr None, tr2) =>
      (inl (Exn (TypeError "can only concatenate str (not NoneType) to str")), tr2)
    | (inr (Some product_list), tr2) =>
      let new_value := "The following similar products were found on eBay:" ++ product_list in
      (inr (new_value, file_path), tr2)
    end
  end.

End Functions.

(** The model calls recorded in a trace. *)
Definition model_calls (tr : list vision_event) : list vision_event :=
  filter (fun e => match e with ChatCompletionsCreate _ _ _ _ => true | _ => false end) tr.

(** A disk with one picture, and a model that lists what it shows. *)
Definition mug_outside : Outside := {|
  read_bytes := fun path =>
    if String.eqb path "/tmp/mug.png" then inr [Byte.x89; Byte.x50; Byte.x4e; Byte.x47]
    else inl "No such file or directory";
  b64encode := fun _ => "iVBORw==";
  chat_completions_create := fun _ => [ {| message_content := Some " red mug" |} ]
|}.

(** The same disk, and a model whose answer carries no text. *)
Definition mute_outside : Outside := {|
  read_bytes := read_bytes mug_outside;
  b64encode := b64encode mug_outside;
  chat_completions_create := fun _ => [ {| message_content := None |} ]
|}.

(** The same disk, and a model whose response has no choice. *)
Definition silent_outside : Outside := {|
  read_bytes := read_bytes mug_outside;
  b64encode := b64encode mug_outside;
  chat_completions_create := fun _ => []
|}.

End Upload.

(** ** Vocabulary for the traces *)

Definition is_print (e : event) : bool :=
  match e with Print _ => true | _ => false end.
Definition is_http (e : event) : bool :=
  match e with HttpGet _ _ => true | _ => false end.
Definition is_sleep (e : event) : bool :=
  match e with Sleep ms => (ms =? 500)%Z | _ => false end.
Definition is_poll (e : event) : bool :=
  match e with RunsRetrieve _ _ _ => true | _ => false end.
Definition is_submit (e : event) : bool :=
  match e with SubmitToolOutputs _ _ _ => true | _ => false end.

(** The events of a search: the request and the log lines. *)
Definition search_event (e : event) : bool := is_http e || is_print e.

Definition count (p : event -> bool) (tr : list event) : nat := length (filter p tr).

(** The exception is one the [except] clause of [get_products] catches. *)
Definition caught (e : exn) : bool :=
  match e with
  | RequestException _ => true
  | _ => false
  end.

(** The arguments of a request decode to an object with a [query]. *)
Definition arguments_ok `{PyLib} (action : tool_call) : bool :=
  match json_loads (tc_function_arguments action) with
  | inr (JObj d) => match lookup "query" d with Some _ => true | None => false end
  | _ => false
  end.

(** How many of the [n] polls from the [first]-th on observe
    [requires_action]. *)
Fixpoint requires_action_polls (w : World) (first n : nat) : nat :=
  match n with
  | O => 0
  | S n' =>
    (if String.eqb (status (runs_retrieve w first)) "requires_action" then 1 else 0)
    + requires_action_polls w (S first) n'
  end.

Definition is_object (v : json) : bool :=
  match v with JObj _ => true | _ => false end.

(** The values [v[:3]] accepts among those a decoder produces. *)
Definition is_sequence (v : json) : bool :=
  match v with JArr _ | JStr _ => true | _ => false end.

(** The newest message of the listing does not open with a text block:
    the listing is empty, or the message has no content, or its first
    block is an image. *)
Definition no_text_reply (data : list message) : bool :=
  match data with
  | [] => true
  | final_response :: _ =>
    match content final_response with
    | TextBlock _ :: _ => false
    | _ => true
    end
  end.

(** The event, when it names a thread (and a run), names these. *)
Definition addressed (thread_id run_id : string) (e : event) : bool :=
  match e with
  | MessagesCreate t _ _ => String.eqb t thread_id
  | RunsCreate t _ _ => String.eqb t thread_id
  | RunsRetrieve t r _ => String.eqb t thread_id && String.eqb r run_id
  | SubmitToolOutputs t r _ => String.eqb t thread_id && String.eqb r run_id
  | MessagesList t => String.eqb t thread_id
  | _ => true
  end.

Definition is_messages_list (e : event) : bool :=
  match e with MessagesList _ => true | _ => false end.

(** The events of the poll loop: sleeping, polling, the events of a
    dispatch, and the listing of the messages. *)
Definition loop_event (e : event) : bool :=
  is_sleep e || is_poll e || search_event e || is_submit e || is_messages_list e.

(** ** More concrete runs *)

Definition world_of (serpapi : option string) (answer : string + response)
           (runs : nat -> run) (messages : list message) : World := {|
  env_OPENAI_API_KEY := Some "sk-test";
  env_SERPAPI := serpapi;
  requests_get := fun _ _ => answer;
  assistants_create := "asst_1";
  threads_create := "thread_1";
  runs_create := "run_1";
  runs_retrieve := runs;
  messages_list := messages
|}.

Definition completed_run : run := {| status := "completed"; required_action := None |}.

(** A listing with a price range instead of a raw price. *)
Definition range_listing : json :=
  JObj [ ("title", JStr "Sandals F");
         ("price", JObj [ ("from", JObj [("raw", JStr "$5.00")]);
                          ("to", JObj [("raw", JStr "$9.00")]) ]);
         ("link", JStr "https://ebay.com/f");
         ("thumbnail", JStr "https://img/f.jpg") ].

Definition range_world : World :=
  world_of (Some "serp-test")
           (inr (ok_response (JObj [("organic_results", JArr [range_listing])])))
           (fun _ => completed_run) [].

(** A payload whose second entry gives the price as a bare string. *)
Definition malformed_world : World :=
  world_of (Some "serp-test")
           (inr (ok_response
                   (JObj [("organic_results",
                           JArr [ listing "Sandals A" "$10.00" "https://ebay.com/a" "https://img/a.jpg";
                                  JObj [("title", JStr "Sandals G"); ("price", JStr "$7.00")] ])])))
           (fun _ => {| status := "requires_action";
                        required_action := Some [search_call "call_1"; search_call "call_2"] |})
           [].

(** A payload that is a list, and one whose result list is null. *)
Definition list_body_world : World :=
  world_of (Some "serp-test") (inr (ok_response (JArr []))) (fun _ => completed_run) [].

Definition null_results_world : World :=
  world_of (Some "serp-test") (inr (ok_response (JObj [("organic_results", JNull)])))
           (fun _ => completed_run) [].

(** The run completes at once but the thread holds no message, or its
    newest message opens with an image. *)
Definition empty_thread_world : World :=
  world_of None (inl "Connection refused") (fun _ => completed_run) [].

Definition image_reply_world : World :=
  world_of None (inl "Connection refused") (fun _ => completed_run)
           [ {| content := [ImageFileBlock "file_1"; TextBlock "See the picture."] |} ].

(** The run is queued, then in progress, and from the third poll on asks
    for action without saying which. *)
Definition late_no_action_world : World :=
  world_of None (inl "Connection refused")
           (fun k => match k with
                     | 0 => {| status := "queued"; required_action := None |}
                     | 1 => {| status := "in_progress"; required_action := None |}
                     | _ => {| status := "requires_action"; required_action := None |}
                     end) [].

(** * Properties *)

(** ** Strings and traces *)

Lemma append_assoc (a b c : string) : (a ++ b) ++ c = a ++ (b ++ c).
Proof.
  induction a as [|ch a IH]; simpl.
  - reflexivity.
  - now rewrite IH.
Qed.

Lemma append_empty_r (a : string) : a ++ "" = a.
Proof.
  induction a as [|ch a IH]; simpl; [reflexivity | now rewrite IH].
Qed.

Lemma submissions_app (a b : list event) :
  submissions (a ++ b) = (submissions a ++ submissions b)%list.
Proof.
  induction a as [|e a IH]; simpl.
  - reflexivity.
  - destruct e; simpl; now rewrite ?IH.
Qed.

Lemma status_window (c : Z) :
  ((400 <=? c)%Z && (c <? 600)%Z = false) ->
  ((400 <=? c)%Z && (c <? 500)%Z = false) /\ ((500 <=? c)%Z && (c <? 600)%Z = false).
Proof.
  intros Hc. split; apply andb_false_iff;
    apply andb_false_iff in Hc; destruct Hc as [Hc|Hc];
    rewrite ?Z.leb_gt, ?Z.ltb_ge in *; lia.
Qed.

Lemma status_failing (c : Z) :
  ((400 <=? c)%Z && (c <? 600)%Z = true) ->
  ((400 <=? c)%Z && (c <? 500)%Z = true) \/
  (((400 <=? c)%Z && (c <? 500)%Z = false) /\ ((500 <=? c)%Z && (c <? 600)%Z = true)).
Proof.
  intros Hc. apply andb_true_iff in Hc. destruct Hc as [Hlo Hhi].
  destruct (c <? 500)%Z eqn:E.
  - left. now rewrite Hlo.
  - right. rewrite Hlo, Hhi. simpl. split; [reflexivity|].
    apply Z.ltb_ge in E. apply andb_true_iff. split; [|reflexivity].
    apply Z.leb_le. lia.
Qed.

(** ** Marketplace search *)

Section SearchFacts.

Context `{PyLib}.
Variable w : World.

(** Four [+=] on the accumulator add up to one block appended to it. *)
Lemma four_lines (acc title price link image a b rp n d f g : string) :
  (((acc ++ (a ++ title ++ b ++ link ++ rp ++ n)) ++ (d ++ price ++ n))
     ++ (f ++ link ++ rp ++ n)) ++ (g ++ image ++ rp ++ n ++ n) =
  acc ++ (a ++ title ++ b ++ link ++ rp ++ n ++
          d ++ price ++ n ++
          f ++ link ++ rp ++ n ++
          g ++ image ++ rp ++ n ++ n).
Proof. now rewrite !append_assoc. Qed.

(** The body of the rendering loop appends the block of the entry. *)
Lemma render_step_block (acc : string) (entry : json) :
  entry_ok entry = true ->
  render_step acc entry = inr (acc ++ entry_block entry).
Proof.
  destruct entry as [| | | | | |d]; try discriminate.
  unfold entry_ok, render_step, entry_block, listing_block, field, price_text, py_get.
  intros Hok.
  destruct (lookup "price" d) as [p|] eqn:Hp.
  - destruct p as [| | | | | |pf]; try discriminate.
    destruct (lookup "title" d), (lookup "link" d), (lookup "thumbnail" d),
      (lookup "raw" pf); cbv beta iota zeta; f_equal; apply four_lines.
  - destruct (lookup "title" d), (lookup "link" d), (lookup "thumbnail" d);
      cbv beta iota zeta; f_equal; apply four_lines.
Qed.

Lemma render_loop_blocks (entries : list json) (acc : string) :
  forallb entry_ok entries = true ->
  render_loop entries acc = inr (acc ++ join (map entry_block entries)).
Proof.
  revert acc. induction entries as [|e entries IH]; intros acc Hok; simpl.
  - now rewrite append_empty_r.
  - simpl in Hok. apply andb_true_iff in Hok. destruct Hok as [He Hrest].
    rewrite (render_step_block acc e He), (IH _ Hrest).
    now rewrite append_assoc.
Qed.

(** A successful search returns the blocks of the first three entries. *)
Lemma get_products_success (st : State) (query : json) (entries : list json) :
  search_succeeds w st query entries ->
  forallb entry_ok (firstn 3 entries) = true ->
  fst (get_products w query st) =
  Returned (Some (join (map entry_block (firstn 3 entries)))).
Proof.
  intros (c & k & r & data & Henv & Hget & Hcode & Hbody & Hres) Hok.
  destruct (status_window _ Hcode) as [H4 H5].
  unfold get_products. rewrite Henv.
  unfold try_except_RequestException, bind, http_get. rewrite Hget.
  unfold raise_for_status. rewrite H4, H5. unfold ret at 1.
  unfold response_json. rewrite Hbody. unfold ret at 1.
  unfold organic_results in Hres. simpl py_get.
  destruct (lookup "organic_results" data) as [v|].
  - destruct v as [| | | | |l|]; try discriminate.
    injection Hres as ->.
    unfold lift at 1, py_slice3, py_iter, ret at 1. unfold lift at 1, ret at 1.
    unfold lift at 1, ret at 1.
    rewrite (render_loop_blocks _ "" Hok). reflexivity.
  - injection Hres as <-. reflexivity.
Qed.

(** Without a credential nothing is requested: the function logs and
    returns [None]. *)
Lemma get_products_no_credential (st : State) (query : json) :
  truthy (env_SERPAPI w) = false ->
  get_products w query st =
  (Returned None,
   {| trace := trace st ++ [Print "SERPAPI environment variable is not set."];
      requested := requested st;
      polled := polled st |}).
Proof.
  unfold get_products, truthy.
  destruct (env_SERPAPI w) as [[|c k]|]; try discriminate; reflexivity.
Qed.

(** A failed request is logged and answered with [None]. *)
Lemma get_products_request_fails (st : State) (query : json) (key : string) :
  truthy (Some key) = true ->
  env_SERPAPI w = Some key ->
  request_fails w st (search_params query key) = true ->
  exists msg,
    get_products w query st =
    (Returned None,
     {| trace := trace st ++ [HttpGet base_url (search_params query key);
                              Print ("Request failed: " ++ msg)];
        requested := S (requested st);
        polled := polled st |}).
Proof.
  intros Hkey Henv Hfail. destruct key as [|c k]; [discriminate|].
  unfold get_products. rewrite Henv.
  unfold request_fails in Hfail.
  unfold try_except_RequestException, bind, http_get.
  destruct (requests_get w (requested st) (search_params query (String c k)))
    as [msg|r].
  - exists msg. unfold print, emit, ret. simpl. now rewrite <- app_assoc.
  - unfold raise_for_status.
    destruct (status_failing _ Hfail) as [H4|[H4 H5]].
    + rewrite H4. eexists. unfold raise, print, emit, ret. simpl.
      now rewrite <- app_assoc.
    + rewrite H4, H5. eexists. unfold raise, print, emit, ret. simpl.
      now rewrite <- app_assoc.
Qed.

(** [get_products] is not a loop: it returns or raises. *)
Lemma get_products_settles (st : State) (query : json) :
  fst (get_products w query st) <> Running.
Proof.
  unfold get_products.
  destruct (env_SERPAPI w) as [[|c k]|]; try (simpl; discriminate).
  unfold try_except_RequestException, bind, http_get.
  destruct (requests_get w _ _) as [msg|r]; [simpl; discriminate|].
  unfold raise_for_status.
  destruct (_ && _); [simpl; discriminate|].
  destruct (_ && _); [simpl; discriminate|].
  unfold ret at 1. unfold response_json.
  destruct (json_body r) as [msg|data]; [simpl; discriminate|].
  unfold ret at 1.
  destruct (py_get data _ _) as [e|v]; [destruct e; simpl; discriminate|].
  unfold lift at 1, ret at 1.
  destruct (py_slice3 v) as [e|v']; [destruct e; simpl; discriminate|].
  unfold lift at 1, ret at 1.
  destruct (py_iter v') as [e|l]; [destruct e; simpl; discriminate|].
  unfold lift at 1, ret at 1.
  destruct (render_loop l "") as [e|out]; [destruct e; simpl; discriminate|].
  simpl. discriminate.
Qed.

(** [get_products] submits nothing to the conversation engine. *)
Lemma get_products_submits_nothing (st : State) (query : json) :
  submissions (trace (snd (get_products w query st))) = submissions (trace st).
Proof.
  unfold get_products.
  destruct (env_SERPAPI w) as [[|c k]|];
    try (simpl; rewrite submissions_app, app_nil_r; reflexivity).
  unfold try_except_RequestException, bind, http_get.
  destruct (requests_get w _ _) as [msg|r];
    [simpl; rewrite !submissions_app, !app_nil_r; reflexivity|].
  unfold raise_for_status.
  destruct (_ && _); [simpl; rewrite !submissions_app, !app_nil_r; reflexivity|].
  destruct (_ && _); [simpl; rewrite !submissions_app, !app_nil_r; reflexivity|].
  unfold ret at 1. unfold response_json.
  destruct (json_body r) as [msg|data];
    [simpl; rewrite !submissions_app, !app_nil_r; reflexivity|].
  unfold ret at 1.
  destruct (py_get data _ _) as [e|v];
    [destruct e; simpl; rewrite !submissions_app, !app_nil_r; reflexivity|].
  unfold lift at 1, ret at 1.
  destruct (py_slice3 v) as [e|v'];
    [destruct e; simpl; rewrite !submissions_app, !app_nil_r; reflexivity|].
  unfold lift at 1, ret at 1.
  destruct (py_iter v') as [e|l];
    [destruct e; simpl; rewrite !submissions_app, !app_nil_r; reflexivity|].
  unfold lift at 1, ret at 1.
  destruct (render_loop l "") as [e|out];
    [destruct e; simpl; rewrite !submissions_app, !app_nil_r; reflexivity|].
  simpl. rewrite !submissions_app, !app_nil_r; reflexivity.
Qed.

End SearchFacts.

(** ** Tool dispatcher *)

Section DispatchFacts.

Context `{PyLib}.
Variable w : World.
Variable session : Session.

#[local] Abbreviation dispatch_step := (dispatch_step w).
#[local] Abbreviation dispatch_loop := (dispatch_loop w).
#[local] Abbreviation call_functions := (call_functions w session).

(** What one pass of the loop does, by cases on the request. *)
Lemma dispatch_step_unregistered (acc : list tool_output) (a : tool_call) (st : State) :
  registered a = false ->
  dispatch_step acc a st =
  (Raised (match json_loads (tc_function_arguments a) with
           | inl msg => JSONDecodeError msg
           | inr _ => ValueError ("Unknown function: " ++ tc_function_name a)
           end), st).
Proof.
  unfold registered, dispatch_step, bind. intros Hname.
  destruct (json_loads _) as [msg|v]; simpl; [reflexivity|].
  now rewrite Hname.
Qed.

Lemma dispatch_step_search (acc : list tool_output) (a : tool_call) (st : State)
      (v query : json) :
  registered a = true ->
  json_loads (tc_function_arguments a) = inr v ->
  py_item v "query" = inr query ->
  dispatch_step acc a st =
  match get_products w query st with
  | (Returned o, st') =>
    (Returned (acc ++ [ {| tool_call_id := tc_id a; output := o |} ])%list, st')
  | (Raised e, st') => (Raised e, st')
  | (Running, st') => (Running, st')
  end.
Proof.
  unfold registered, dispatch_step, bind. intros Hname Hargs Hq.
  rewrite Hargs. simpl. rewrite Hname, Hq. simpl.
  destruct (get_products w query st) as [[o|e|] st']; reflexivity.
Qed.

(** A pass that returns has served a registered request: it appended one
    output carrying the id of the request, and submitted nothing. *)
Lemma dispatch_step_returned (acc outs : list tool_output) (a : tool_call) (st st' : State) :
  dispatch_step acc a st = (Returned outs, st') ->
  registered a = true /\
  exists o, outs = (acc ++ [ {| tool_call_id := tc_id a; output := o |} ])%list.
Proof.
  unfold registered, dispatch_step, bind.
  destruct (json_loads _) as [msg|v]; simpl; [discriminate|].
  destruct (tc_function_name a =? "search_ebay"); [|discriminate].
  destruct (py_item v "query") as [e|q]; simpl; [discriminate|].
  destruct (get_products w q st) as [[o|e|] st1]; simpl; try discriminate.
  intros Heq. injection Heq as <- <-. split; [reflexivity|]. now exists o.
Qed.

Lemma dispatch_step_settles (acc : list tool_output) (a : tool_call) (st : State) :
  fst (dispatch_step acc a st) <> Running.
Proof.
  unfold dispatch_step, bind.
  destruct (json_loads _) as [msg|v]; simpl; [discriminate|].
  destruct (tc_function_name a =? "search_ebay"); [|simpl; discriminate].
  destruct (py_item v "query") as [e|q]; simpl; [discriminate|].
  pose proof (get_products_settles w st q) as Hs.
  destruct (get_products w q st) as [[o|e|] st1]; simpl in *; congruence.
Qed.

Lemma dispatch_step_submits_nothing (acc : list tool_output) (a : tool_call) (st : State) :
  submissions (trace (snd (dispatch_step acc a st))) = submissions (trace st).
Proof.
  unfold dispatch_step, bind.
  destruct (json_loads _) as [msg|v]; simpl; [reflexivity|].
  destruct (tc_function_name a =? "search_ebay"); [|reflexivity].
  destruct (py_item v "query") as [e|q]; simpl; [reflexivity|].
  pose proof (get_products_submits_nothing w st q) as Hs.
  destruct (get_products w q st) as [[o|e|] st1]; simpl in *; exact Hs.
Qed.

(** The loop over a batch split in two is the loop over the first part
    followed by the loop over the second. *)
Lemma dispatch_loop_app (pre post : list tool_call) (acc : list tool_output) (st : State) :
  dispatch_loop (pre ++ post) acc st =
  (acc' <- dispatch_loop pre acc ;; dispatch_loop post acc') st.
Proof.
  revert acc st. induction pre as [|a pre IH]; intros acc st; simpl.
  - reflexivity.
  - unfold bind in *.
    destruct (dispatch_step acc a st) as [[acc'|e|] st1]; try reflexivity.
    apply IH.
Qed.

Lemma dispatch_loop_settles (calls : list tool_call) (acc : list tool_output) (st : State) :
  fst (dispatch_loop calls acc st) <> Running.
Proof.
  revert acc st. induction calls as [|a calls IH]; intros acc st; simpl.
  - discriminate.
  - unfold bind. pose proof (dispatch_step_settles acc a st) as Hs.
    destruct (dispatch_step acc a st) as [[acc'|e|] st1]; simpl in *;
      [apply IH | discriminate | congruence].
Qed.

Lemma dispatch_loop_submits_nothing (calls : list tool_call) (acc : list tool_output)
      (st : State) :
  submissions (trace (snd (dispatch_loop calls acc st))) = submissions (trace st).
Proof.
  revert acc st. induction calls as [|a calls IH]; intros acc st; simpl.
  - reflexivity.
  - unfold bind. pose proof (dispatch_step_submits_nothing acc a st) as Hs.
    destruct (dispatch_step acc a st) as [[acc'|e|] st1]; simpl in *;
      [rewrite IH|..]; exact Hs.
Qed.

(** A loop that returns has served every request, all of them registered:
    it appended one output per request, in order, each with the id of its
    request. *)
Lemma dispatch_loop_returned (calls : list tool_call) (acc outs : list tool_output)
      (st st' : State) :
  dispatch_loop calls acc st = (Returned outs, st') ->
  forallb registered calls = true /\
  exists new, outs = (acc ++ new)%list /\ map tool_call_id new = map tc_id calls.
Proof.
  revert acc st. induction calls as [|a calls IH]; intros acc st; simpl.
  - intros Heq. injection Heq as <- <-. split; [reflexivity|].
    exists []. now rewrite app_nil_r.
  - unfold bind.
    destruct (dispatch_step acc a st) as [[acc'|e|] st1] eqn:Hstep; try discriminate.
    intros Hrest.
    destruct (dispatch_step_returned _ _ _ _ _ Hstep) as [Hreg [o ->]].
    destruct (IH _ _ Hrest) as [Hregs [new [-> Hids]]].
    rewrite Hreg, Hregs. split; [reflexivity|].
    exists ({| tool_call_id := tc_id a; output := o |} :: new).
    rewrite <- app_assoc. simpl. now rewrite Hids.
Qed.

(** A loop that does not raise returns. *)
Lemma dispatch_loop_served (calls : list tool_call) (acc : list tool_output) (st : State) :
  raises (dispatch_loop calls acc st) = false ->
  exists outs st', dispatch_loop calls acc st = (Returned outs, st').
Proof.
  unfold raises. pose proof (dispatch_loop_settles calls acc st) as Hs.
  destruct (dispatch_loop calls acc st) as [[outs|e|] st']; simpl in *;
    [eauto | discriminate | congruence].
Qed.

(** [call_functions] after a loop that returned: one submission, of the
    collected outputs, tagged with the thread and the run. *)
Lemma call_functions_submits (calls : list tool_call) (run_id : string)
      (outs : list tool_output) (st st' : State) :
  dispatch_loop calls [] st = (Returned outs, st') ->
  call_functions calls run_id st =
  (Returned tt,
   {| trace := trace st' ++ [SubmitToolOutputs (conversation_thread session) run_id outs];
      requested := requested st';
      polled := polled st' |}).
Proof.
  intros Hloop. unfold call_functions, bind. now rewrite Hloop.
Qed.

(** [call_functions] after a loop that raised: the exception passes
    through and the state is the one the loop left. *)
Lemma call_functions_raises (calls : list tool_call) (run_id : string) (e : exn)
      (st st' : State) :
  dispatch_loop calls [] st = (Raised e, st') ->
  call_functions calls run_id st = (Raised e, st').
Proof.
  intros Hloop. unfold call_functions, bind. now rewrite Hloop.
Qed.

End DispatchFacts.

Lemma join_app (a b : list string) : join (a ++ b) = join a ++ join b.
Proof.
  induction a as [|x a IH]; simpl.
  - reflexivity.
  - now rewrite IH, append_assoc.
Qed.

Lemma join_cons (x : string) (l : list string) : join (x :: l) = x ++ join l.
Proof. reflexivity. Qed.

Lemma firstn3_split {A : Type} (pre : list A) (x : A) (post : list A) :
  length pre < 3 ->
  firstn 3 (pre ++ x :: post) = (pre ++ x :: firstn (2 - length pre) post)%list.
Proof.
  intros Hlen.
  destruct pre as [|a [|b [|c pre]]]; simpl in *; try reflexivity; lia.
Qed.

(** ** The claims about the search client *)

(** C5.  For every query, when the search credential is absent (or empty)
    or the HTTP request fails (transport failure, or an answer with an
    HTTP error status), [get_products] returns [None]; it does not
    raise. *)
Theorem get_products_unavailable_returns_None `{PyLib}
        (w : World) (st : State) (query : json) :
  search_unavailable w st query = true ->
  exists st', get_products w query st = (Returned None, st').
Proof.
  unfold search_unavailable. intros Hun.
  destruct (env_SERPAPI w) as [[|c k]|] eqn:Henv.
  - rewrite get_products_no_credential; [eauto | now rewrite Henv].
  - destruct (get_products_request_fails w st query (String c k)) as [msg Hmsg];
      [reflexivity | assumption | assumption | ].
    rewrite Hmsg. eauto.
  - rewrite get_products_no_credential; [eauto | now rewrite Henv].
Qed.

Lemma get_products_unavailable_returns_None_witness :
  (search_unavailable offline_world initial (JStr "gladiator sandals") = true /\
   exists st', get_products (H:=table_lib) offline_world (JStr "gladiator sandals") initial
               = (Returned None, st')) /\
  (search_unavailable unreachable_world initial (JStr "gladiator sandals") = true /\
   exists st', get_products (H:=table_lib) unreachable_world (JStr "gladiator sandals") initial
               = (Returned None, st')).
Proof.
  split; (split;
    [ reflexivity
    | apply (@get_products_unavailable_returns_None table_lib); reflexivity ]).
Defined.

(** C6, as the code has it.  For every successful search response whose
    first three entries are listings (objects whose price, when present,
    is an object),
    [get_products] returns the blocks of exactly the first [min 3 n] of
    the [n] entries of [organic_results], in the provider's order, one
    block per entry laid out from its title, price, link and thumbnail;
    with zero entries it returns the empty string. *)
Theorem get_products_renders_first_three `{PyLib}
        (w : World) (st : State) (query : json) (entries : list json) :
  search_succeeds w st query entries ->
  forallb entry_ok (firstn 3 entries) = true ->
  fst (get_products w query st) =
    Returned (Some (join (map entry_block (firstn 3 entries)))) /\
  length (firstn 3 entries) = Nat.min 3 (length entries) /\
  (entries = [] -> fst (get_products w query st) = Returned (Some "")).
Proof.
  intros Hs Hok. split; [|split].
  - now apply get_products_success.
  - apply length_firstn.
  - intros ->. now rewrite (get_products_success w st query [] Hs Hok).
Qed.

Lemma sandals_search_succeeds :
  search_succeeds sandals_world initial (JStr "gladiator sandals") five_results.
Proof.
  exists "s"%char, "erp-test",
         (ok_response (JObj [("organic_results", JArr five_results)])),
         [("organic_results", JArr five_results)].
  repeat split; reflexivity.
Defined.

Lemma get_products_renders_first_three_witness :
  fst (get_products (H:=table_lib) sandals_world (JStr "gladiator sandals") initial) =
    Returned (Some (join (map (entry_block (H:=table_lib)) (firstn 3 five_results)))) /\
  length (firstn 3 five_results) = Nat.min 3 (length five_results) /\
  (five_results = [] ->
   fst (get_products (H:=table_lib) sandals_world (JStr "gladiator sandals") initial) =
     Returned (Some "")).
Proof.
  apply (@get_products_renders_first_three table_lib sandals_world initial
           (JStr "gladiator sandals") five_results).
  - exact sandals_search_succeeds.
  - reflexivity.
Defined.

(** C6, as stated, fails: a successful response whose second entry gives
    the price as a bare string makes [get_products] raise
    [AttributeError] instead of returning a rendering. *)
Lemma successful_search_can_raise :
  search_succeeds malformed_world initial (JStr "gladiator sandals")
    [ listing "Sandals A" "$10.00" "https://ebay.com/a" "https://img/a.jpg";
      JObj [("title", JStr "Sandals G"); ("price", JStr "$7.00")] ] /\
  get_products (H:=table_lib) malformed_world (JStr "gladiator sandals") initial =
    (Raised (AttributeError "object has no attribute 'get'"),
     {| trace := [HttpGet base_url (search_params (JStr "gladiator sandals") "serp-test")];
        requested := 1;
        polled := 0 |}).
Proof.
  split; [|reflexivity].
  exists "s"%char, "erp-test". eexists. eexists.
  repeat split; reflexivity.
Qed.

(** C7.  For every successful search response, an entry among the first
    three that has no price field is rendered with the price line reading
    exactly N/A. *)
Theorem missing_price_renders_NA `{PyLib}
        (w : World) (st : State) (query : json)
        (pre : list json) (d : list (string * json)) (post : list json) :
  search_succeeds w st query (pre ++ JObj d :: post) ->
  forallb entry_ok (firstn 3 (pre ++ JObj d :: post)) = true ->
  length pre < 3 ->
  lookup "price" d = None ->
  fst (get_products w query st) =
    Returned (Some (
      join (map entry_block pre) ++
      ("- **Title:** [" ++ field "title" d ++ "](" ++ field "link" d ++ ")" ++ nl ++
       "  - **Price:** N/A" ++ nl ++
       "  - **Link:** [View on eBay](" ++ field "link" d ++ ")" ++ nl ++
       "  - **Image:** ![Image](" ++ field "thumbnail" d ++ ")" ++ nl ++ nl) ++
      join (map entry_block (firstn (2 - length pre) post)))).
Proof.
  intros Hs Hok Hlen Hprice.
  rewrite (get_products_success w st query _ Hs Hok).
  rewrite (firstn3_split pre (JObj d) post Hlen).
  rewrite map_app, join_app, map_cons, join_cons.
  do 4 f_equal.
  unfold entry_block, listing_block, price_text. rewrite Hprice.
  reflexivity.
Qed.

Lemma missing_price_renders_NA_witness :
  fst (get_products (H:=table_lib) sandals_world (JStr "gladiator sandals") initial) =
    Returned (Some (
      join (map (entry_block (H:=table_lib)) (firstn 1 five_results)) ++
      ("- **Title:** [Sandals B](https://ebay.com/b)" ++ nl ++
       "  - **Price:** N/A" ++ nl ++
       "  - **Link:** [View on eBay](https://ebay.com/b)" ++ nl ++
       "  - **Image:** ![Image](https://img/b.jpg)" ++ nl ++ nl) ++
      join (map (entry_block (H:=table_lib)) (firstn 1 (skipn 2 five_results))))).
Proof.
  apply (@missing_price_renders_NA table_lib sandals_world initial
           (JStr "gladiator sandals")
           (firstn 1 five_results)
           [ ("title", JStr "Sandals B");
             ("link", JStr "https://ebay.com/b");
             ("thumbnail", JStr "https://img/b.jpg") ]
           (skipn 2 five_results)).
  - exact sandals_search_succeeds.
  - reflexivity.
  - simpl. lia.
  - reflexivity.
Defined.

(** ** The claims about the dispatcher *)

(** C2, as the code has it.  For every list of pending tool calls whose
    function names are all registered and for which no handler invocation
    raises, [call_functions] produces exactly one tool output per request,
    each carrying the id of its request, in the order of the requests, and
    hands them all to the conversation engine in a single
    [submit_tool_outputs] call tagged with the thread and the given run
    id. *)
Theorem call_functions_answers_every_request `{PyLib}
        (w : World) (session : Session) (calls : list tool_call) (run_id : string)
        (st : State) :
  forallb registered calls = true ->
  raises (dispatch_loop w calls [] st) = false ->
  exists outs st1,
    dispatch_loop w calls [] st = (Returned outs, st1) /\
    length outs = length calls /\
    map tool_call_id outs = map tc_id calls /\
    call_functions w session calls run_id st =
      (Returned tt,
       {| trace := trace st1 ++
                   [SubmitToolOutputs (conversation_thread session) run_id outs];
          requested := requested st1;
          polled := polled st1 |}) /\
    submissions (trace st1 ++ [SubmitToolOutputs (conversation_thread session) run_id outs]) =
      (submissions (trace st) ++ [(conversation_thread session, run_id, outs)])%list.
Proof.
  intros _ Hquiet.
  destruct (dispatch_loop_served w calls [] st Hquiet) as (outs & st1 & Hloop).
  destruct (dispatch_loop_returned w _ _ _ _ _ Hloop) as [_ [new [Hout Hids]]].
  simpl in Hout. subst new.
  exists outs, st1. repeat split.
  - exact Hloop.
  - rewrite <- (length_map tool_call_id), Hids. apply length_map.
  - exact Hids.
  - now apply call_functions_submits.
  - rewrite submissions_app. simpl. f_equal.
    pose proof (dispatch_loop_submits_nothing w calls [] st) as Hs.
    now rewrite Hloop in Hs.
Qed.

Lemma call_functions_answers_every_request_witness :
  exists outs st1,
    dispatch_loop (H:=table_lib) sandals_world [search_call "call_1"; search_call "call_2"]
                  [] initial = (Returned outs, st1) /\
    length outs = 2 /\
    map tool_call_id outs = ["call_1"; "call_2"] /\
    call_functions (H:=table_lib) sandals_world the_session
                   [search_call "call_1"; search_call "call_2"] "run_1" initial =
      (Returned tt,
       {| trace := trace st1 ++ [SubmitToolOutputs "thread_1" "run_1" outs];
          requested := requested st1;
          polled := polled st1 |}) /\
    submissions (trace st1 ++ [SubmitToolOutputs "thread_1" "run_1" outs]) =
      [("thread_1", "run_1", outs)].
Proof.
  apply (@call_functions_answers_every_request table_lib sandals_world the_session
           [search_call "call_1"; search_call "call_2"] "run_1" initial);
    reflexivity.
Defined.

(** C2, as stated, fails: a request for the registered function whose
    arguments carry no [query] makes the handler invocation raise
    [KeyError]; no output is produced and nothing is submitted. *)
Lemma call_functions_registered_batch_can_raise :
  let calls := [ {| tc_id := "call_1";
                    tc_function_name := "search_ebay";
                    tc_function_arguments := "{}" |} ] in
  forallb registered calls = true /\
  call_functions (H:=table_lib) sandals_world the_session calls "run_1" initial =
    (Raised (KeyError "query"), initial) /\
  submissions (trace (snd (call_functions (H:=table_lib) sandals_world the_session
                                          calls "run_1" initial))) = [].
Proof. repeat split. Qed.




(** C4.  If a handler invocation inside [call_functions] raises, the
    unknown-function error included, the exception leaves
    [call_functions] before [submit_tool_outputs] is reached: nothing is
    submitted, not even the outputs collected for the earlier requests of
    the batch. *)
Theorem failed_dispatch_submits_nothing `{PyLib}
        (w : World) (session : Session) (calls : list tool_call) (run_id : string)
        (st : State) :
  raises (dispatch_loop w calls [] st) = true ->
  exists e st',
    dispatch_loop w calls [] st = (Raised e, st') /\
    call_functions w session calls run_id st = (Raised e, st') /\
    submissions (trace st') = submissions (trace st).
Proof.
  unfold raises. intros Hr.
  pose proof (dispatch_loop_submits_nothing w calls [] st) as Hsub.
  destruct (dispatch_loop w calls [] st) as [[acc|e|] st1] eqn:Hloop;
    simpl in *; try discriminate.
  exists e, st1. split; [reflexivity|]. split; [|exact Hsub].
  now apply call_functions_raises.
Qed.

Lemma failed_dispatch_submits_nothing_witness :
  exists e st',
    dispatch_loop (H:=table_lib) unknown_tool_world
      [ search_call "call_1";
        {| tc_id := "call_2"; tc_function_name := "search_amazon";
           tc_function_arguments := "{}" |} ] [] initial = (Raised e, st') /\
    call_functions (H:=table_lib) unknown_tool_world the_session
      [ search_call "call_1";
        {| tc_id := "call_2"; tc_function_name := "search_amazon";
           tc_function_arguments := "{}" |} ] "run_1" initial = (Raised e, st') /\
    submissions (trace st') = submissions (trace initial).
Proof.
  apply (@failed_dispatch_submits_nothing table_lib unknown_tool_world the_session).
  reflexivity.
Defined.

(** C10.  When [get_products] returns [None] for a request of a batch
    that is served to the end, [call_functions] appends for that request
    an output entry whose [output] is exactly [None], at the position of
    the request, and the batch it submits contains that entry unchanged:
    the [None] is neither filtered out, nor replaced, nor an error. *)
Theorem None_output_is_submitted `{PyLib}
        (w : World) (session : Session) (pre : list tool_call) (a : tool_call)
        (post : list tool_call) (run_id : string)
        (st st1 st2 : State) (outs1 : list tool_output) (v query : json) :
  dispatch_loop w pre [] st = (Returned outs1, st1) ->
  registered a = true ->
  json_loads (tc_function_arguments a) = inr v ->
  py_item v "query" = inr query ->
  get_products w query st1 = (Returned None, st2) ->
  raises (dispatch_loop w post
            (outs1 ++ [ {| tool_call_id := tc_id a; output := None |} ]) st2) = false ->
  dispatch_step w outs1 a st1 =
    (Returned (outs1 ++ [ {| tool_call_id := tc_id a; output := None |} ])%list, st2) /\
  exists outs st3,
    call_functions w session (pre ++ a :: post) run_id st = (Returned tt, st3) /\
    nth_error outs (length pre) = Some {| tool_call_id := tc_id a; output := None |} /\
    length outs = length (pre ++ a :: post) /\
    submissions (trace st3) =
      (submissions (trace st) ++ [(conversation_thread session, run_id, outs)])%list.
Proof.
  intros Hpre Hreg Hargs Hq Hnone Hpost.
  assert (Hstep : dispatch_step w outs1 a st1 =
                  (Returned (outs1 ++ [ {| tool_call_id := tc_id a; output := None |} ])%list,
                   st2)).
  { rewrite (dispatch_step_search w outs1 a st1 v query Hreg Hargs Hq).
    now rewrite Hnone. }
  split; [exact Hstep|].
  destruct (dispatch_loop_served w _ _ _ Hpost) as (outs & st3 & Hloop).
  assert (Hall : dispatch_loop w (pre ++ a :: post) [] st = (Returned outs, st3)).
  { rewrite dispatch_loop_app. unfold bind at 1. rewrite Hpre.
    simpl. unfold bind. rewrite Hstep. exact Hloop. }
  destruct (dispatch_loop_returned w _ _ _ _ _ Hpre) as [_ [new1 [Hout1 Hids1]]].
  simpl in Hout1. subst new1.
  destruct (dispatch_loop_returned w _ _ _ _ _ Hloop) as [_ [new [Hout Hids]]].
  destruct (dispatch_loop_returned w _ _ _ _ _ Hall) as [_ [new' [Hout' Hids']]].
  simpl in Hout'. subst new'.
  assert (Hlen : length outs1 = length pre).
  { rewrite <- (length_map tool_call_id), Hids1. apply length_map. }
  eexists outs, _. split; [apply (call_functions_submits w session _ _ _ _ _ Hall)|].
  split; [|split].
  - rewrite Hout, <- app_assoc, <- Hlen.
    rewrite nth_error_app2 by lia. now rewrite Nat.sub_diag.
  - rewrite <- (length_map tool_call_id), Hids'. apply length_map.
  - simpl. rewrite submissions_app. simpl. f_equal.
    pose proof (dispatch_loop_submits_nothing w (pre ++ a :: post) [] st) as Hs.
    now rewrite Hall in Hs.
Qed.

Lemma None_output_is_submitted_witness :
  dispatch_step (H:=table_lib) offline_world
    [ {| tool_call_id := "call_1"; output := None |} ] (search_call "call_2")
    {| trace := [Print "SERPAPI environment variable is not set."];
       requested := 0; polled := 0 |} =
    (Returned [ {| tool_call_id := "call_1"; output := None |};
                {| tool_call_id := "call_2"; output := None |} ],
     {| trace := [Print "SERPAPI environment variable is not set.";
                  Print "SERPAPI environment variable is not set."];
        requested := 0; polled := 0 |}) /\
  exists outs st3,
    call_functions (H:=table_lib) offline_world the_session
      ([search_call "call_1"] ++ search_call "call_2" :: [search_call "call_3"])
      "run_1" initial = (Returned tt, st3) /\
    nth_error outs 1 = Some {| tool_call_id := "call_2"; output := None |} /\
    length outs = 3 /\
    submissions (trace st3) = [("thread_1", "run_1", outs)].
Proof.
  apply (@None_output_is_submitted table_lib offline_world the_session
           [search_call "call_1"] (search_call "call_2") [search_call "call_3"]
           "run_1" initial
           {| trace := [Print "SERPAPI environment variable is not set."];
              requested := 0; polled := 0 |}
           {| trace := [Print "SERPAPI environment variable is not set.";
                        Print "SERPAPI environment variable is not set."];
              requested := 0; polled := 0 |}
           [ {| tool_call_id := "call_1"; output := None |} ]
           (JObj [("query", JStr "gladiator sandals")])
           (JStr "gladiator sandals"));
    reflexivity.
Defined.

(** ** Conversation session *)

Section PollFacts.

Context `{PyLib}.
Variable w : World.
Variable session : Session.

Lemma get_products_polled (st : State) (query : json) :
  polled (snd (get_products w query st)) = polled st.
Proof.
  unfold get_products.
  destruct (env_SERPAPI w) as [[|c k]|]; try reflexivity.
  unfold try_except_RequestException, bind, http_get.
  destruct (requests_get w _ _) as [msg|r]; [reflexivity|].
  unfold raise_for_status.
  destruct (_ && _); [reflexivity|].
  destruct (_ && _); [reflexivity|].
  unfold ret at 1. unfold response_json.
  destruct (json_body r) as [msg|data]; [reflexivity|].
  unfold ret at 1.
  destruct (py_get data _ _) as [e|v]; [destruct e; reflexivity|].
  unfold lift at 1, ret at 1.
  destruct (py_slice3 v) as [e|v']; [destruct e; reflexivity|].
  unfold lift at 1, ret at 1.
  destruct (py_iter v') as [e|l]; [destruct e; reflexivity|].
  unfold lift at 1, ret at 1.
  destruct (render_loop l "") as [e|out]; [destruct e; reflexivity|].
  reflexivity.
Qed.

Lemma dispatch_loop_polled (calls : list tool_call) (acc : list tool_output) (st : State) :
  polled (snd (dispatch_loop w calls acc st)) = polled st.
Proof.
  revert acc st. induction calls as [|a calls IH]; intros acc st; simpl.
  - reflexivity.
  - unfold bind at 1.
    assert (Hstep : polled (snd (dispatch_step w acc a st)) = polled st).
    { unfold dispatch_step, bind.
      destruct (json_loads _) as [msg|v]; simpl; [reflexivity|].
      destruct (tc_function_name a =? "search_ebay"); [|reflexivity].
      destruct (py_item v "query") as [e|q]; simpl; [reflexivity|].
      pose proof (get_products_polled st q) as Hp.
      destruct (get_products w q st) as [[o|e|] st1]; simpl in *; exact Hp. }
    destruct (dispatch_step w acc a st) as [[acc'|e|] st1]; simpl in *;
      [rewrite IH|..]; exact Hstep.
Qed.

(** A dispatch that does not raise returns, having moved no poll cursor. *)
Lemma call_functions_quiet (calls : list tool_call) (run_id : string) (st : State) :
  raises (call_functions w session calls run_id st) = false ->
  exists st', call_functions w session calls run_id st = (Returned tt, st') /\
              polled st' = polled st.
Proof.
  unfold raises, call_functions, bind.
  pose proof (dispatch_loop_settles w calls [] st) as Hset.
  pose proof (dispatch_loop_polled calls [] st) as Hpol.
  destruct (dispatch_loop w calls [] st) as [[outs|e|] st1]; simpl in *.
  - intros _. eexists. split; [reflexivity|]. exact Hpol.
  - discriminate.
  - congruence.
Qed.

(** The loop returns only from an iteration whose poll observed
    [completed]. *)
Lemma poll_loop_returns_on_completed (fuel : nat) (run_id : string) (st st' : State)
      (reply : string) :
  poll_loop w session fuel run_id st = (Returned reply, st') ->
  exists k,
    status (runs_retrieve w k) = "completed" /\
    In (RunsRetrieve (conversation_thread session) run_id "completed") (trace st').
Proof.
  revert st. induction fuel as [|fuel IH]; intros st; simpl.
  - discriminate.
  - unfold bind at 1. unfold poll at 1.
    set (r := runs_retrieve w (polled st)).
    set (st1 := {| trace := _; requested := _; polled := _ |}).
    destruct (status r =? "completed") eqn:Hdone.
    + apply String.eqb_eq in Hdone.
      assert (Hreq : (status r =? "requires_action") = false)
        by (rewrite Hdone; reflexivity).
      rewrite Hreq. unfold bind, ret, emit, lift. simpl.
      destruct (final_response_text (messages_list w)); simpl; [discriminate|].
      intros Heq. injection Heq as <- <-. exists (polled st). split; [exact Hdone|].
      simpl. rewrite Hdone. apply in_or_app. left. apply in_or_app. right.
      simpl. auto.
    + unfold bind at 1.
      destruct (if status r =? "requires_action" then _ else _) as [[u|e|] st2];
        [apply IH | discriminate | discriminate].
Qed.

(** While no poll observes [completed] and no dispatch raises, every
    iteration ends in the next one. *)
Lemma poll_loop_keeps_polling (fuel : nat) (st : State) :
  never_completed w ->
  dispatch_never_raises w session ->
  exists st', poll_loop w session fuel (runs_create w) st = (Running, st') /\
              polled st' = polled st + fuel.
Proof.
  intros Hnever Hquiet. revert st.
  induction fuel as [|fuel IH]; intros st; simpl.
  - exists st. split; [reflexivity | lia].
  - unfold bind at 1. unfold poll at 1.
    set (r := runs_retrieve w (polled st)).
    set (st1 := {| trace := _; requested := _; polled := _ |}).
    assert (Hdone : (status r =? "completed") = false) by apply Hnever.
    rewrite Hdone. unfold bind at 1.
    destruct (status r =? "requires_action") eqn:Hreq.
    + destruct (Hquiet (polled st) st1 Hreq) as (calls & Hcalls & Hr).
      fold r in Hcalls. rewrite Hcalls.
      destruct (call_functions_quiet calls _ st1 Hr) as (st2 & -> & Hpol).
      destruct (IH st2) as (st' & -> & Hp). exists st'. split; [reflexivity|].
      rewrite Hp, Hpol. subst st1. simpl. lia.
    + unfold ret at 1.
      destruct (IH st1) as (st' & -> & Hp). exists st'. split; [reflexivity|].
      rewrite Hp. subst st1. simpl. lia.
Qed.

Lemma call_functions_settles (calls : list tool_call) (run_id : string) (st : State) :
  fst (call_functions w session calls run_id st) <> Running.
Proof.
  unfold call_functions, bind, submit_tool_outputs, emit.
  pose proof (dispatch_loop_settles w calls [] st) as Hset.
  destruct (dispatch_loop w calls [] st) as [[outs|e|] st1]; simpl in *;
    [discriminate | discriminate | congruence].
Qed.

(** One iteration of the loop, case by case. *)
Lemma poll_loop_step (fuel : nat) (run_id : string) (st : State) :
  poll_loop w session (S fuel) run_id st =
  match
    (if status (runs_retrieve w (polled st)) =? "requires_action"
     then match required_action (runs_retrieve w (polled st)) with
          | Some tool_calls => call_functions w session tool_calls run_id
          | None => raise (AttributeError
                             "'NoneType' object has no attribute 'submit_tool_outputs'")
          end
     else ret tt)
      {| trace := trace st ++
                  [Sleep 500;
                   RunsRetrieve (conversation_thread session) run_id
                                (status (runs_retrieve w (polled st)))];
         requested := requested st;
         polled := S (polled st) |}
  with
  | (Returned _, st2) =>
    if status (runs_retrieve w (polled st)) =? "completed"
    then (match final_response_text (messages_list w) with
          | inl e => Raised e
          | inr reply => Returned reply
          end,
          {| trace := trace st2 ++ [MessagesList (conversation_thread session)];
             requested := requested st2;
             polled := polled st2 |})
    else poll_loop w session fuel run_id st2
  | (Raised e, st2) => (Raised e, st2)
  | (Running, st2) => (Running, st2)
  end.
Proof.
  simpl. unfold bind at 1. unfold poll at 1. unfold bind at 1.
  match goal with
  | |- context [ (if _ =? "requires_action" then ?a else ?b) ?s ] =>
    destruct ((if status (runs_retrieve w (polled st)) =? "requires_action"
               then a else b) s) as [[u|e|] st2]
  end; try reflexivity.
  destruct (status (runs_retrieve w (polled st)) =? "completed"); [|reflexivity].
  unfold bind, emit, lift.
  destruct (final_response_text (messages_list w)); reflexivity.
Qed.

(** A loop still polling after [n] iterations goes on from the state it
    reached: more fuel only adds iterations. *)
Lemma poll_loop_extend (n m : nat) (run_id : string) (st st_n : State) :
  poll_loop w session n run_id st = (Running, st_n) ->
  poll_loop w session (n + m) run_id st = poll_loop w session m run_id st_n.
Proof.
  revert st. induction n as [|n IH]; intros st.
  - simpl. intros [= ->]. reflexivity.
  - change (S n + m) with (S (n + m)). rewrite !poll_loop_step.
    match goal with
    | |- context [ (if _ =? "requires_action" then ?a else ?b) ?s ] =>
      set (D := (if status (runs_retrieve w (polled st)) =? "requires_action"
                 then a else b) s)
    end.
    assert (HD : fst D <> Running).
    { subst D. destruct (status (runs_retrieve w (polled st)) =? "requires_action");
        [destruct (required_action (runs_retrieve w (polled st)));
         [apply call_functions_settles|]|];
        simpl; discriminate. }
    clearbody D. destruct D as [[u|e|] st2];
      simpl in HD; try discriminate; try congruence.
    destruct (status (runs_retrieve w (polled st)) =? "completed").
    + destruct (final_response_text (messages_list w)); discriminate.
    + apply IH.
Qed.

End PollFacts.

(** C1, as the code has it.  [process_query] returns only when a poll
    observes the status [completed].  For every polled status sequence in
    which [completed] never occurs, [process_query] never returns, and as
    long as no tool dispatch raises the poll loop goes on indefinitely:
    after any number of iterations it has made that many polls and is
    still polling.  An exception raised inside [call_functions], at
    whatever poll, propagates out of [process_query] and ends the loop:
    [process_query] ends with that exception, in the state the dispatch
    left.  Iteration by iteration: a loop still polling after [n] polls,
    whose next poll does not observe [completed] and whose dispatch, if
    any, does not raise, is still polling after [n + 1]. *)
Theorem process_query_returns_only_on_completed `{PyLib}
        (w : World) (session : Session) (user_query : string)
        (interaction_history : list (string * string)) :
  (forall fuel st reply st',
      process_query w session user_query interaction_history fuel st = (Returned reply, st') ->
      exists k,
        status (runs_retrieve w k) = "completed" /\
        In (RunsRetrieve (conversation_thread session) (runs_create w) "completed")
           (trace st')) /\
  (never_completed w ->
   (forall fuel st reply,
       fst (process_query w session user_query interaction_history fuel st)
       <> Returned reply) /\
   (dispatch_never_raises w session ->
    forall fuel st,
    exists st',
      process_query w session user_query interaction_history fuel st = (Running, st') /\
      polled st' = polled st + fuel)) /\
  (forall n m st st_n tool_calls e st2,
      process_query w session user_query interaction_history n st = (Running, st_n) ->
      (status (runs_retrieve w (polled st_n)) =? "requires_action") = true ->
      required_action (runs_retrieve w (polled st_n)) = Some tool_calls ->
      call_functions w session tool_calls (runs_create w)
        {| trace := trace st_n ++
                    [Sleep 500;
                     RunsRetrieve (conversation_thread session) (runs_create w)
                                  (status (runs_retrieve w (polled st_n)))];
           requested := requested st_n;
           polled := S (polled st_n) |} = (Raised e, st2) ->
      process_query w session user_query interaction_history (n + S m) st
      = (Raised e, st2)) /\
  (forall n st st_n,
      process_query w session user_query interaction_history n st = (Running, st_n) ->
      (status (runs_retrieve w (polled st_n)) =? "completed") = false ->
      ((status (runs_retrieve w (polled st_n)) =? "requires_action") = false \/
       exists tool_calls,
         required_action (runs_retrieve w (polled st_n)) = Some tool_calls /\
         raises (call_functions w session tool_calls (runs_create w)
                   {| trace := trace st_n ++
                               [Sleep 500;
                                RunsRetrieve (conversation_thread session) (runs_create w)
                                             (status (runs_retrieve w (polled st_n)))];
                      requested := requested st_n;
                      polled := S (polled st_n) |}) = false) ->
      exists st',
        process_query w session user_query interaction_history (n + 1) st = (Running, st') /\
        polled st' = S (polled st_n)).
Proof.
  assert (Hret : forall fuel st reply st',
             process_query w session user_query interaction_history fuel st
             = (Returned reply, st') ->
             exists k,
               status (runs_retrieve w k) = "completed" /\
               In (RunsRetrieve (conversation_thread session) (runs_create w) "completed")
                  (trace st')).
  { intros fuel st reply st'. unfold process_query, bind, emit. simpl.
    apply poll_loop_returns_on_completed. }
  split; [exact Hret|]. split; [|split].
  - intros Hnever. split.
    + intros fuel st reply Heq.
      destruct (process_query w session user_query interaction_history fuel st)
        as [o st'] eqn:Hrun.
      simpl in Heq. subst o.
      destruct (Hret _ _ _ _ Hrun) as (k & Hk & _).
      specialize (Hnever k). rewrite Hk in Hnever. discriminate.
    + intros Hquiet fuel st. unfold process_query, bind, emit. simpl.
      match goal with |- context [poll_loop w session fuel (runs_create w) ?s] =>
        destruct (poll_loop_keeps_polling w session fuel s Hnever Hquiet)
          as (st' & Hloop & Hp)
      end.
      exists st'. split; [exact Hloop | exact Hp].
  - intros n m st st_n tool_calls e st2. unfold process_query, bind, emit. cbn beta iota.
    intros Hrun Hreq Hcalls Hraise.
    rewrite (poll_loop_extend w session n (S m) _ _ _ Hrun).
    rewrite poll_loop_step, Hreq, Hcalls, Hraise. reflexivity.
  - intros n st st_n. unfold process_query, bind, emit. cbn beta iota.
    intros Hrun Hdone Hcase.
    rewrite (poll_loop_extend w session n 1 _ _ _ Hrun).
    rewrite poll_loop_step, Hdone.
    destruct Hcase as [Hreq | (tool_calls & Hcalls & Hr)].
    + rewrite Hreq. unfold ret. simpl. eexists. split; reflexivity.
    + destruct (status (runs_retrieve w (polled st_n)) =? "requires_action").
      * rewrite Hcalls.
        destruct (call_functions_quiet w session tool_calls _ _ Hr) as (st2 & -> & Hp).
        simpl. exists st2. split; [reflexivity | exact Hp].
      * unfold ret. simpl. eexists. split; reflexivity.
Qed.

Lemma failed_run_never_completes : never_completed offline_world.
Proof. intros k. destruct k; reflexivity. Defined.

Lemma failed_run_dispatch_is_served :
  dispatch_never_raises (H:=table_lib) offline_world the_session.
Proof.
  intros k st Hreq. destruct k as [|k]; [|discriminate Hreq].
  eexists. split; reflexivity.
Defined.

Lemma process_query_returns_only_on_completed_witness :
  (never_completed offline_world /\
   dispatch_never_raises (H:=table_lib) offline_world the_session /\
   exists st',
     process_query (H:=table_lib) offline_world the_session "gladiator sandals" []
                   7 initial = (Running, st') /\
     polled st' = polled initial + 7) /\
  process_query (H:=table_lib) unknown_tool_world the_session "gladiator sandals" []
                (0 + S 6) initial =
  (Raised (ValueError "Unknown function: search_amazon"),
   {| trace :=
        [ MessagesCreate "thread_1" "user" "gladiator sandals";
          RunsCreate "thread_1" "asst_1"
            "The user needs help validating the price of an item on eBay.";
          Sleep 500;
          RunsRetrieve "thread_1" "run_1" "requires_action";
          HttpGet base_url (search_params (JStr "gladiator sandals") "serp-test") ];
      requested := 1;
      polled := 1 |}).
Proof.
  split.
  - split; [exact failed_run_never_completes|].
    split; [exact failed_run_dispatch_is_served|].
    apply (proj2 (proj1 (proj2 (@process_query_returns_only_on_completed table_lib
                                  offline_world the_session "gladiator sandals" []))
                        failed_run_never_completes)
                 failed_run_dispatch_is_served 7 initial).
  - apply (proj1 (proj2 (proj2 (@process_query_returns_only_on_completed table_lib
                                  unknown_tool_world the_session "gladiator sandals" [])))
                 0 6 initial
                 {| trace :=
                      [ MessagesCreate "thread_1" "user" "gladiator sandals";
                        RunsCreate "thread_1" "asst_1"
                          "The user needs help validating the price of an item on eBay." ];
                    requested := 0; polled := 0 |}
                 [ search_call "call_1";
                   {| tc_id := "call_2"; tc_function_name := "search_amazon";
                      tc_function_arguments := "{}" |} ]);
      reflexivity.
Defined.

(** C1, as stated, fails: a run that never completes but asks for a
    function that is not registered makes the dispatch raise at the first
    poll; the exception leaves [process_query] and the loop polls no
    more. *)
Lemma process_query_can_abort_without_completed :
  never_completed unknown_tool_world /\
  forall fuel,
    process_query (H:=table_lib) unknown_tool_world the_session "gladiator sandals" []
                  (S fuel) initial =
    (Raised (ValueError "Unknown function: search_amazon"),
     {| trace :=
          [ MessagesCreate "thread_1" "user" "gladiator sandals";
            RunsCreate "thread_1" "asst_1"
              "The user needs help validating the price of an item on eBay.";
            Sleep 500;
            RunsRetrieve "thread_1" "run_1" "requires_action";
            HttpGet base_url (search_params (JStr "gladiator sandals") "serp-test") ];
        requested := 1;
        polled := 1 |}).
Proof.
  split.
  - intros k. reflexivity.
  - intros fuel. reflexivity.
Qed.

(** The scenario of the specification: over the status sequence queued,
    in progress, requires action, in progress, completed, the reply is
    returned after five polls and exactly one batch is submitted. *)
Example scenario_one_dispatch :
  exists st',
    process_query (H:=table_lib) sandals_world the_session "gladiator sandals" []
                  5 initial =
    (Returned "Similar sandals sell for $10 to $30.", st') /\
    polled st' = 5 /\
    length (submissions (trace st')) = 1.
Proof. eexists. repeat split. Qed.

(** C9.  [process_query] never reads [interaction_history]: for every
    query and any two histories it makes the same external calls, in the
    same order, and ends with the same outcome. *)
Theorem interaction_history_is_ignored `{PyLib}
        (w : World) (session : Session) (user_query : string)
        (history1 history2 : list (string * string)) (fuel : nat) (st : State) :
  process_query w session user_query history1 fuel st =
  process_query w session user_query history2 fuel st.
Proof. reflexivity. Qed.

(** ** Start-up *)

(** C8.  If the conversation credential is absent from the environment
    (or empty), module initialisation raises, either in the constructor
    of the client or at the credential check, before the assistant and
    the thread are created: no call is made, the process does not start
    serving, and no query is processed. *)
Theorem startup_without_key_is_fatal `{PyLib} (w : World) (st : State) :
  truthy (env_OPENAI_API_KEY w) = false ->
  let e := match OpenAI_new (env_OPENAI_API_KEY w) with
           | Some e' => e'
           | None => EnvironmentError "API key for OpenAI not found in environment variables."
           end in
  module_init w st = (Raised e, st) /\
  forall user_query fuel, main w user_query fuel st = (Raised e, st).
Proof.
  intros Hkey e. subst e.
  assert (Hinit : module_init w st =
                  (Raised (match OpenAI_new (env_OPENAI_API_KEY w) with
                           | Some e' => e'
                           | None => EnvironmentError
                                       "API key for OpenAI not found in environment variables."
                           end), st)).
  { unfold module_init. destruct (OpenAI_new _); [reflexivity|].
    now rewrite Hkey. }
  split; [exact Hinit|].
  intros user_query fuel. unfold main, bind. now rewrite Hinit.
Qed.

Lemma startup_without_key_is_fatal_witness :
  module_init (H:=table_lib) keyless_world initial =
    (Raised (LibraryError "The api_key client option must be set"), initial) /\
  forall user_query fuel,
    main (H:=table_lib) keyless_world user_query fuel initial =
    (Raised (LibraryError "The api_key client option must be set"), initial).
Proof.
  apply (@startup_without_key_is_fatal table_lib keyless_world initial).
  reflexivity.
Defined.

(** * Further properties of the code *)

(** ** Counting events *)

Lemma count_app (p : event -> bool) (a b : list event) :
  count p (a ++ b) = count p a + count p b.
Proof. unfold count. now rewrite filter_app, length_app. Qed.

Lemma count_none (p q : event -> bool) (tr : list event) :
  (forall e, q e = true -> p e = false) ->
  forallb q tr = true ->
  count p tr = 0.
Proof.
  intros Hpq. induction tr as [|e tr IH]; simpl; [reflexivity|].
  intros Hq. apply andb_true_iff in Hq. destruct Hq as [He Htr].
  unfold count in *. simpl. rewrite (Hpq e He). now apply IH.
Qed.

(** ** What a search does and does not do *)

Section SearchEffects.

Context `{PyLib}.
Variable w : World.

Lemma py_get_error (v : json) (key : string) (default : json) (e : exn) :
  py_get v key default = inl e -> exists msg, e = AttributeError msg.
Proof. destruct v; simpl; intros Heq; inversion Heq; eauto. Qed.

Lemma py_slice3_error (v : json) (e : exn) :
  py_slice3 v = inl e -> exists msg, e = TypeError msg \/ e = KeyError msg.
Proof.
  destruct v; simpl; intros Heq; inversion Heq; eauto.
  destruct slices_hashable; eauto.
Qed.

Lemma py_iter_error (v : json) (e : exn) :
  py_iter v = inl e -> exists msg, e = TypeError msg.
Proof. destruct v; simpl; intros Heq; inversion Heq; eauto. Qed.

Lemma render_step_error (acc : string) (entry : json) (e : exn) :
  render_step acc entry = inl e -> exists msg, e = AttributeError msg.
Proof.
  unfold render_step.
  destruct (py_get entry "title" JNull) as [e1|title] eqn:H1;
    [intros [= <-]; eapply py_get_error; eassumption|].
  destruct (py_get entry "price" (JObj [])) as [e2|price_obj] eqn:H2;
    [intros [= <-]; eapply py_get_error; eassumption|].
  destruct (py_get price_obj "raw" (JStr "N/A")) as [e3|price] eqn:H3;
    [intros [= <-]; eapply py_get_error; eassumption|].
  destruct (py_get entry "link" JNull) as [e4|link] eqn:H4;
    [intros [= <-]; eapply py_get_error; eassumption|].
  destruct (py_get entry "thumbnail" JNull) as [e5|image] eqn:H5;
    [intros [= <-]; eapply py_get_error; eassumption|].
  discriminate.
Qed.

Lemma render_loop_error (entries : list json) (acc : string) (e : exn) :
  render_loop entries acc = inl e -> exists msg, e = AttributeError msg.
Proof.
  revert acc. induction entries as [|x entries IH]; intros acc; simpl.
  - discriminate.
  - destruct (render_step acc x) as [e1|acc'] eqn:Hstep.
    + intros [= <-]. eapply render_step_error; eassumption.
    + apply IH.
Qed.

(** An entry that is not a listing makes the loop body raise. *)
Lemma render_step_malformed (acc : string) (entry : json) :
  entry_ok entry = false ->
  exists msg, render_step acc entry = inl (AttributeError msg).
Proof.
  unfold entry_ok, render_step.
  destruct entry as [| | | | | |d]; try (intros _; simpl; eauto; fail).
  simpl py_get.
  destruct (lookup "price" d) as [p|]; [|discriminate].
  destruct p; try discriminate; intros _; simpl; eauto.
Qed.

Lemma render_loop_malformed (entries : list json) (acc : string) :
  forallb entry_ok entries = false ->
  exists msg, render_loop entries acc = inl (AttributeError msg).
Proof.
  revert acc. induction entries as [|x entries IH]; intros acc; simpl.
  - discriminate.
  - intros Hbad. destruct (entry_ok x) eqn:Hx.
    + rewrite (render_step_block acc x Hx). apply IH. exact Hbad.
    + destruct (render_step_malformed acc x Hx) as [msg ->]. eauto.
Qed.

(** The whole of [get_products], by cases on the credential and on what
    came of the request. *)
Lemma get_products_shape (st : State) (query : json) :
  exists o st',
    get_products w query st = (o, st') /\
    polled st' = polled st /\
    match env_SERPAPI w with
    | Some (String c k) =>
      requested st' = S (requested st) /\
      ((exists text,
          o = Returned (Some text) /\
          trace st' = (trace st ++ [HttpGet base_url (search_params query (String c k))])%list) \/
       (exists e,
          o = Raised e /\ caught e = false /\
          trace st' = (trace st ++ [HttpGet base_url (search_params query (String c k))])%list) \/
       (exists msg,
          o = Returned None /\
          trace st' = (trace st ++ [HttpGet base_url (search_params query (String c k));
                                    Print msg])%list))
    | _ =>
      o = Returned None /\
      requested st' = requested st /\
      trace st' = (trace st ++ [Print "SERPAPI environment variable is not set."])%list
    end.
Proof.
  unfold get_products.
  destruct (env_SERPAPI w) as [[|c k]|];
    try (eexists _, _; split; [reflexivity|]; simpl; auto; fail).
  unfold try_except_RequestException, bind, http_get.
  destruct (requests_get w _ _) as [msg|r].
  { eexists _, _; split; [reflexivity|]. simpl. rewrite <- app_assoc. simpl.
    repeat split. right. right. eauto. }
  unfold raise_for_status.
  destruct (_ && _).
  { eexists _, _; split; [reflexivity|]. simpl. rewrite <- app_assoc. simpl.
    repeat split. right. right. eauto. }
  destruct (_ && _).
  { eexists _, _; split; [reflexivity|]. simpl. rewrite <- app_assoc. simpl.
    repeat split. right. right. eauto. }
  unfold ret at 1. unfold response_json.
  destruct (json_body r) as [msg|data].
  { eexists _, _; split; [reflexivity|]. simpl. rewrite <- app_assoc. simpl.
    repeat split. right. right. eauto. }
  unfold ret at 1.
  destruct (py_get data _ _) as [e|v] eqn:E1.
  { destruct (py_get_error _ _ _ _ E1) as [m ->].
    eexists _, _; split; [reflexivity|]. simpl. repeat split. right. left. eauto. }
  unfold lift at 1, ret at 1.
  destruct (py_slice3 v) as [e|v'] eqn:E2.
  { destruct (py_slice3_error _ _ E2) as [m [-> | ->]];
      (eexists _, _; split; [reflexivity|]; simpl; repeat split; right; left; eauto). }
  unfold lift at 1, ret at 1.
  destruct (py_iter v') as [e|l] eqn:E3.
  { destruct (py_iter_error _ _ E3) as [m ->].
    eexists _, _; split; [reflexivity|]. simpl. repeat split. right. left. eauto. }
  unfold lift at 1, ret at 1.
  destruct (render_loop l "") as [e|out] eqn:E4.
  { destruct (render_loop_error _ _ _ E4) as [m ->].
    eexists _, _; split; [reflexivity|]. simpl. repeat split. right. left. eauto. }
  eexists _, _; split; [reflexivity|]. simpl. repeat split. left. eauto.
Qed.

(** A search whose answer arrives without error status, by cases on the
    body. *)
Lemma get_products_on_body (st : State) (query : json) (c : ascii) (k : string)
      (r : response) (data : json) :
  env_SERPAPI w = Some (String c k) ->
  requests_get w (requested st) (search_params query (String c k)) = inr r ->
  ((400 <=? status_code r)%Z && (status_code r <? 600)%Z = false) ->
  json_body r = inr data ->
  fst (get_products w query st) =
  match py_get data "organic_results" (JArr []) with
  | inl e => Raised e
  | inr organic =>
    match py_slice3 organic with
    | inl e => Raised e
    | inr top =>
      match py_iter top with
      | inl e => Raised e
      | inr results =>
        match render_loop results "" with
        | inl e => Raised e
        | inr text => Returned (Some text)
        end
      end
    end
  end.
Proof.
  intros Henv Hget Hcode Hbody.
  destruct (status_window _ Hcode) as [H4 H5].
  unfold get_products. rewrite Henv.
  unfold try_except_RequestException, bind, http_get. rewrite Hget.
  unfold raise_for_status. rewrite H4, H5. unfold ret at 1.
  unfold response_json. rewrite Hbody. unfold ret at 1.
  destruct (py_get data _ _) as [e|v] eqn:E1.
  { destruct (py_get_error _ _ _ _ E1) as [m ->]. reflexivity. }
  unfold lift at 1, ret at 1.
  destruct (py_slice3 v) as [e|v'] eqn:E2.
  { destruct (py_slice3_error _ _ E2) as [m [-> | ->]]; reflexivity. }
  unfold lift at 1, ret at 1.
  destruct (py_iter v') as [e|l] eqn:E3.
  { destruct (py_iter_error _ _ E3) as [m ->]. reflexivity. }
  unfold lift at 1, ret at 1.
  destruct (render_loop l "") as [e|out] eqn:E4.
  { destruct (render_loop_error _ _ _ E4) as [m ->]. reflexivity. }
  reflexivity.
Qed.

End SearchEffects.

(** X1.  [get_products] never calls the conversation engine and never
    polls.  With a credential it issues exactly one GET, to the fixed
    endpoint, with the query passed on unchanged as [_nkw] and the
    credential as [api_key]; without one (unset or empty) it issues none.
    Whatever else it leaves in the trace is a log line. *)
Theorem get_products_single_request `{PyLib} (w : World) (st : State) (query : json) :
  exists logs,
    forallb is_print logs = true /\
    polled (snd (get_products w query st)) = polled st /\
    match env_SERPAPI w with
    | Some (String c k) =>
      trace (snd (get_products w query st)) =
        (trace st ++
         HttpGet "https://serpapi.com/search.json"
                 [ ("engine", JStr "ebay"); ("_nkw", query);
                   ("ebay_domain", JStr "ebay.com"); ("api_key", JStr (String c k)) ]
         :: logs)%list /\
      requested (snd (get_products w query st)) = S (requested st)
    | _ =>
      trace (snd (get_products w query st)) = (trace st ++ logs)%list /\
      requested (snd (get_products w query st)) = requested st
    end.
Proof.
  destruct (get_products_shape w st query) as (o & st' & -> & Hpol & Hshape).
  simpl. destruct (env_SERPAPI w) as [[|c k]|].
  - destruct Hshape as (_ & Hreq & ->). eexists. repeat split; [|exact Hpol|exact Hreq].
    reflexivity.
  - destruct Hshape as (Hreq & [(text & _ & ->)|[(e & _ & _ & ->)|(msg & _ & ->)]]).
    + exists []. repeat split; assumption.
    + exists []. repeat split; assumption.
    + exists [Print msg]. repeat split; assumption.
  - destruct Hshape as (_ & Hreq & ->). eexists. repeat split; [|exact Hpol|exact Hreq].
    reflexivity.
Qed.

(** X2.  [get_products] prints exactly one log line when it returns
    [None], and none when it returns a text or lets an exception
    escape. *)
Theorem get_products_logs_exactly_when_None `{PyLib}
        (w : World) (st : State) (query : json) :
  count is_print (trace (snd (get_products w query st))) =
  count is_print (trace st) +
  match fst (get_products w query st) with
  | Returned None => 1
  | _ => 0
  end.
Proof.
  destruct (get_products_shape w st query) as (o & st' & -> & Hpol & Hshape).
  simpl. destruct (env_SERPAPI w) as [[|c k]|].
  - destruct Hshape as (-> & _ & ->). now rewrite count_app.
  - destruct Hshape as (_ & [(text & -> & ->)|[(e & -> & _ & ->)|(msg & -> & ->)]]);
      now rewrite count_app.
  - destruct Hshape as (-> & _ & ->). now rewrite count_app.
Qed.

(** X3.  The [except] clause is effective: a [RequestException] never
    leaves [get_products].  An exception leaves it only when the
    credential is set. *)
Theorem get_products_never_leaks_request_exception `{PyLib}
        (w : World) (st : State) (query : json) (e : exn) :
  fst (get_products w query st) = Raised e ->
  caught e = false /\
  truthy (env_SERPAPI w) = true.
Proof.
  destruct (get_products_shape w st query) as (o & st' & -> & Hpol & Hshape).
  simpl. intros ->. destruct (env_SERPAPI w) as [[|c k]|].
  - destruct Hshape as (Habs & _). discriminate.
  - destruct Hshape as (Hreq & [(text & Habs & _)|[(e' & He & Hp & _)|(msg & Habs & _)]]);
      try discriminate.
    injection He as <-. auto.
  - destruct Hshape as (Habs & _). discriminate.
Qed.

Lemma get_products_never_leaks_request_exception_witness :
  fst (get_products (H:=table_lib) malformed_world (JStr "gladiator sandals") initial) =
    Raised (AttributeError "object has no attribute 'get'") /\
  caught (AttributeError "object has no attribute 'get'") = false /\
  truthy (env_SERPAPI malformed_world) = true.
Proof.
  split; [reflexivity|].
  apply (@get_products_never_leaks_request_exception table_lib malformed_world initial
           (JStr "gladiator sandals")).
  reflexivity.
Defined.

Lemma search_succeeds_body `{PyLib} (w : World) (st : State) (query : json)
      (entries : list json) :
  search_succeeds w st query entries ->
  fst (get_products w query st) =
  match render_loop (firstn 3 entries) "" with
  | inl e => Raised e
  | inr text => Returned (Some text)
  end.
Proof.
  intros (c & k & r & data & Henv & Hget & Hcode & Hbody & Hres).
  rewrite (get_products_on_body w st query c k r (JObj data) Henv Hget Hcode Hbody).
  unfold organic_results in Hres. simpl py_get.
  destruct (lookup "organic_results" data) as [v|].
  - destruct v as [| | | | |l|]; try discriminate.
    injection Hres as ->. reflexivity.
  - injection Hres as <-. reflexivity.
Qed.

(** X4.  When the search succeeds but one of the first three entries is
    not a listing (not an object, or with a price that is not an object),
    [get_products] raises [AttributeError]: the [except] clause does not
    catch it. *)
Theorem get_products_malformed_entry_raises `{PyLib}
        (w : World) (st : State) (query : json) (entries : list json) :
  search_succeeds w st query entries ->
  forallb entry_ok (firstn 3 entries) = false ->
  exists msg, fst (get_products w query st) = Raised (AttributeError msg).
Proof.
  intros Hs Hbad. rewrite (search_succeeds_body w st query entries Hs).
  destruct (render_loop_malformed (firstn 3 entries) "" Hbad) as [msg ->].
  now exists msg.
Qed.

Lemma malformed_search_succeeds :
  search_succeeds malformed_world initial (JStr "gladiator sandals")
    [ listing "Sandals A" "$10.00" "https://ebay.com/a" "https://img/a.jpg";
      JObj [("title", JStr "Sandals G"); ("price", JStr "$7.00")] ].
Proof.
  exists "s"%char, "erp-test". eexists. eexists.
  repeat split; reflexivity.
Defined.

Lemma get_products_malformed_entry_raises_witness :
  exists msg,
    fst (get_products (H:=table_lib) malformed_world (JStr "gladiator sandals") initial) =
    Raised (AttributeError msg).
Proof.
  apply (@get_products_malformed_entry_raises table_lib malformed_world initial
           (JStr "gladiator sandals") _ malformed_search_succeeds).
  reflexivity.
Defined.

(** X5.  An entry among the first three whose price is an object without
    [raw] (a price range, say) is rendered with the price line reading
    N/A, like an entry without price. *)
Theorem price_without_raw_renders_NA `{PyLib}
        (w : World) (st : State) (query : json)
        (pre : list json) (d p : list (string * json)) (post : list json) :
  search_succeeds w st query (pre ++ JObj d :: post) ->
  forallb entry_ok (firstn 3 (pre ++ JObj d :: post)) = true ->
  length pre < 3 ->
  lookup "price" d = Some (JObj p) ->
  lookup "raw" p = None ->
  fst (get_products w query st) =
    Returned (Some (
      join (map entry_block pre) ++
      ("- **Title:** [" ++ field "title" d ++ "](" ++ field "link" d ++ ")" ++ nl ++
       "  - **Price:** N/A" ++ nl ++
       "  - **Link:** [View on eBay](" ++ field "link" d ++ ")" ++ nl ++
       "  - **Image:** ![Image](" ++ field "thumbnail" d ++ ")" ++ nl ++ nl) ++
      join (map entry_block (firstn (2 - length pre) post)))).
Proof.
  intros Hs Hok Hlen Hprice Hraw.
  rewrite (get_products_success w st query _ Hs Hok).
  rewrite (firstn3_split pre (JObj d) post Hlen).
  rewrite map_app, join_app, map_cons, join_cons.
  do 4 f_equal.
  unfold entry_block, listing_block, price_text. rewrite Hprice, Hraw.
  reflexivity.
Qed.

Lemma range_search_succeeds :
  search_succeeds range_world initial (JStr "gladiator sandals") ([] ++ range_listing :: []).
Proof.
  exists "s"%char, "erp-test". eexists. eexists.
  repeat split; reflexivity.
Defined.

Lemma price_without_raw_renders_NA_witness :
  fst (get_products (H:=table_lib) range_world (JStr "gladiator sandals") initial) =
    Returned (Some (
      "" ++
      ("- **Title:** [Sandals F](https://ebay.com/f)" ++ nl ++
       "  - **Price:** N/A" ++ nl ++
       "  - **Link:** [View on eBay](https://ebay.com/f)" ++ nl ++
       "  - **Image:** ![Image](https://img/f.jpg)" ++ nl ++ nl) ++
      "")).
Proof.
  apply (@price_without_raw_renders_NA table_lib range_world initial
           (JStr "gladiator sandals") []
           [ ("title", JStr "Sandals F");
             ("price", JObj [ ("from", JObj [("raw", JStr "$5.00")]);
                              ("to", JObj [("raw", JStr "$9.00")]) ]);
             ("link", JStr "https://ebay.com/f");
             ("thumbnail", JStr "https://img/f.jpg") ]
           [ ("from", JObj [("raw", JStr "$5.00")]);
             ("to", JObj [("raw", JStr "$9.00")]) ]
           [] range_search_succeeds).
  - reflexivity.
  - simpl. lia.
  - reflexivity.
  - reflexivity.
Defined.

(** X6.  When the answer arrives without error status but its body
    decodes to something other than an object, [get_products] raises
    [AttributeError]. *)
Theorem get_products_body_not_object_raises `{PyLib}
        (w : World) (st : State) (query : json) (key : string)
        (r : response) (data : json) :
  truthy (Some key) = true ->
  env_SERPAPI w = Some key ->
  requests_get w (requested st) (search_params query key) = inr r ->
  request_fails w st (search_params query key) = false ->
  json_body r = inr data ->
  is_object data = false ->
  exists msg, fst (get_products w query st) = Raised (AttributeError msg).
Proof.
  intros Hkey Henv Hget Hcode Hbody Hobj.
  destruct key as [|c k]; [discriminate|].
  unfold request_fails in Hcode. rewrite Hget in Hcode.
  rewrite (get_products_on_body w st query c k r data Henv Hget Hcode Hbody).
  destruct data; try discriminate; simpl; eauto.
Qed.

Lemma get_products_body_not_object_raises_witness :
  exists msg,
    fst (get_products (H:=table_lib) list_body_world (JStr "gladiator sandals") initial) =
    Raised (AttributeError msg).
Proof.
  apply (@get_products_body_not_object_raises table_lib list_body_world initial
           (JStr "gladiator sandals") "serp-test" (ok_response (JArr [])) (JArr []));
    reflexivity.
Defined.

(** X7.  When the body is an object whose [organic_results] is present
    but is neither a list nor a string, taking its first three entries
    raises: [TypeError] for null, a number or a boolean, and for an object
    [KeyError] where slices are hashable and [TypeError] elsewhere. *)
Theorem get_products_results_not_sequence_raises `{PyLib}
        (w : World) (st : State) (query : json) (key : string)
        (r : response) (data : list (string * json)) (v : json) :
  truthy (Some key) = true ->
  env_SERPAPI w = Some key ->
  requests_get w (requested st) (search_params query key) = inr r ->
  request_fails w st (search_params query key) = false ->
  json_body r = inr (JObj data) ->
  lookup "organic_results" data = Some v ->
  is_sequence v = false ->
  exists msg,
    fst (get_products w query st) =
    Raised (if is_object v && slices_hashable then KeyError msg else TypeError msg).
Proof.
  intros Hkey Henv Hget Hcode Hbody Hv Hseq.
  destruct key as [|c k]; [discriminate|].
  unfold request_fails in Hcode. rewrite Hget in Hcode.
  rewrite (get_products_on_body w st query c k r (JObj data) Henv Hget Hcode Hbody).
  simpl py_get. rewrite Hv.
  destruct v; try discriminate; simpl; eauto.
  destruct slices_hashable; simpl; eauto.
Qed.

Lemma get_products_results_not_sequence_raises_witness :
  exists msg,
    fst (get_products (H:=table_lib) null_results_world (JStr "gladiator sandals") initial) =
    Raised (if is_object JNull && slices_hashable (PyLib:=table_lib)
            then KeyError msg else TypeError msg).
Proof.
  apply (@get_products_results_not_sequence_raises table_lib null_results_world initial
           (JStr "gladiator sandals") "serp-test"
           (ok_response (JObj [("organic_results", JNull)]))
           [("organic_results", JNull)] JNull);
    reflexivity.
Defined.

(** ** What a dispatch does and does not do *)

Section DispatchEffects.

Context `{PyLib}.
Variable w : World.
Variable session : Session.

Lemma get_products_trace (st : State) (query : json) :
  exists added,
    trace (snd (get_products w query st)) = (trace st ++ added)%list /\
    forallb search_event added = true /\
    count is_http added = (if truthy (env_SERPAPI w) then 1 else 0) /\
    polled (snd (get_products w query st)) = polled st.
Proof.
  destruct (get_products_shape w st query) as (o & st' & -> & Hpol & Hshape).
  simpl. destruct (env_SERPAPI w) as [[|c k]|].
  - destruct Hshape as (_ & _ & ->). eexists. split; [reflexivity|]. auto.
  - destruct Hshape as (_ & [(text & _ & ->)|[(e & _ & _ & ->)|(msg & _ & ->)]]);
      (eexists; split; [reflexivity|]; auto).
  - destruct Hshape as (_ & _ & ->). eexists. split; [reflexivity|]. auto.
Qed.

(** One pass either leaves the state alone or is one search. *)
Lemma dispatch_step_cases (acc : list tool_output) (a : tool_call) (st : State) :
  (exists e, dispatch_step w acc a st = (Raised e, st)) \/
  (exists query,
      registered a = true /\
      dispatch_step w acc a st =
      match get_products w query st with
      | (Returned o, st') =>
        (Returned (acc ++ [ {| tool_call_id := tc_id a; output := o |} ])%list, st')
      | (Raised e, st') => (Raised e, st')
      | (Running, st') => (Running, st')
      end).
Proof.
  destruct (registered a) eqn:Hreg.
  - destruct (json_loads (tc_function_arguments a)) as [msg|v] eqn:Hargs.
    + left. unfold dispatch_step, bind. rewrite Hargs. simpl. eauto.
    + destruct (py_item v "query") as [e|query] eqn:Hq.
      * left. unfold dispatch_step, bind. rewrite Hargs. simpl.
        unfold registered in Hreg. rewrite Hreg, Hq. simpl. eauto.
      * right. exists query. split; [reflexivity|].
        now apply (dispatch_step_search w acc a st v query).
  - left. rewrite (dispatch_step_unregistered w acc a st Hreg). eauto.
Qed.

Lemma dispatch_step_trace (acc : list tool_output) (a : tool_call) (st : State) :
  exists added,
    trace (snd (dispatch_step w acc a st)) = (trace st ++ added)%list /\
    forallb search_event added = true /\
    count is_http added <= 1 /\
    (raises (dispatch_step w acc a st) = false ->
     count is_http added = (if truthy (env_SERPAPI w) then 1 else 0)) /\
    polled (snd (dispatch_step w acc a st)) = polled st.
Proof.
  destruct (dispatch_step_cases acc a st) as [(e & ->)|(query & _ & ->)].
  - exists []. simpl. rewrite app_nil_r. repeat split; auto. discriminate.
  - destruct (get_products_trace st query) as (added & Htr & Hev & Hcount & Hpol).
    exists added.
    destruct (get_products w query st) as [[o|e|] st']; simpl in *;
      (repeat split; [exact Htr | exact Hev | | try (intros _; exact Hcount) | exact Hpol]);
      try (rewrite Hcount; destruct (truthy _); lia);
      try discriminate.
Qed.

Lemma dispatch_loop_trace (calls : list tool_call) (acc : list tool_output) (st : State) :
  exists added,
    trace (snd (dispatch_loop w calls acc st)) = (trace st ++ added)%list /\
    forallb search_event added = true /\
    count is_http added <= length calls /\
    (raises (dispatch_loop w calls acc st) = false ->
     count is_http added = (if truthy (env_SERPAPI w) then length calls else 0)) /\
    polled (snd (dispatch_loop w calls acc st)) = polled st.
Proof.
  revert acc st. induction calls as [|a calls IH]; intros acc st; simpl.
  - exists []. rewrite app_nil_r. repeat split; auto. destruct (truthy _); reflexivity.
  - unfold bind.
    destruct (dispatch_step_trace acc a st) as (added1 & Htr1 & Hev1 & Hle1 & Hc1 & Hpol1).
    destruct (dispatch_step w acc a st) as [[acc'|e|] st1] eqn:Hstep; simpl in *.
    + destruct (IH acc' st1) as (added2 & Htr2 & Hev2 & Hle2 & Hc2 & Hpol2).
      exists (added1 ++ added2)%list. repeat split.
      * rewrite Htr2, Htr1. now rewrite app_assoc.
      * rewrite forallb_app, Hev1, Hev2. reflexivity.
      * rewrite count_app. lia.
      * intros Hr. rewrite count_app, (Hc1 eq_refl), (Hc2 Hr).
        destruct (truthy _); reflexivity.
      * now rewrite Hpol2.
    + exists added1. repeat split; try assumption; [lia | discriminate].
    + exists added1. repeat split; try assumption; [lia|].
      exfalso. apply (dispatch_step_settles w acc a st). now rewrite Hstep.
Qed.

Lemma dispatch_loop_without_credential (calls : list tool_call) (acc : list tool_output)
      (st : State) :
  truthy (env_SERPAPI w) = false ->
  forallb registered calls = true ->
  forallb arguments_ok calls = true ->
  dispatch_loop w calls acc st =
  (Returned (acc ++ map (fun a => {| tool_call_id := tc_id a; output := None |}) calls)%list,
   {| trace := trace st ++
               repeat (Print "SERPAPI environment variable is not set.") (length calls);
      requested := requested st;
      polled := polled st |}).
Proof.
  intros Hcred. revert acc st.
  induction calls as [|a calls IH]; intros acc st Hreg Hargs; simpl.
  - rewrite !app_nil_r. now destruct st.
  - simpl in Hreg, Hargs.
    apply andb_true_iff in Hreg. destruct Hreg as [Hra Hreg].
    apply andb_true_iff in Hargs. destruct Hargs as [Haa Hargs].
    unfold arguments_ok in Haa.
    destruct (json_loads (tc_function_arguments a)) as [msg|v] eqn:Hv; [discriminate|].
    destruct v as [| | | | | |d]; try discriminate.
    destruct (lookup "query" d) as [query|] eqn:Hq; [|discriminate].
    unfold bind.
    rewrite (dispatch_step_search w acc a st (JObj d) query Hra Hv)
      by (simpl; now rewrite Hq).
    rewrite (get_products_no_credential w st query Hcred).
    rewrite (IH _ _ Hreg Hargs). simpl.
    now rewrite <- !app_assoc.
Qed.

End DispatchEffects.

(** X8.  Without the search credential, a batch of registered requests
    whose arguments decode to an object with a [query] is always served:
    [call_functions] makes no HTTP request, logs once per request, and
    submits one output per request, in order, each with a null
    [output]. *)
Theorem call_functions_without_credential `{PyLib}
        (w : World) (session : Session) (calls : list tool_call) (run_id : string)
        (st : State) :
  truthy (env_SERPAPI w) = false ->
  forallb registered calls = true ->
  forallb arguments_ok calls = true ->
  call_functions w session calls run_id st =
  (Returned tt,
   {| trace := (trace st ++
                repeat (Print "SERPAPI environment variable is not set.") (length calls)) ++
               [SubmitToolOutputs (conversation_thread session) run_id
                  (map (fun a => {| tool_call_id := tc_id a; output := None |}) calls)];
      requested := requested st;
      polled := polled st |}).
Proof.
  intros Hcred Hreg Hargs.
  rewrite (call_functions_submits w session calls run_id _ _ _
             (dispatch_loop_without_credential w calls [] st Hcred Hreg Hargs)).
  reflexivity.
Qed.

Lemma call_functions_without_credential_witness :
  call_functions (H:=table_lib) offline_world the_session
                 [search_call "call_1"; search_call "call_2"] "run_1" initial =
  (Returned tt,
   {| trace := [ Print "SERPAPI environment variable is not set.";
                 Print "SERPAPI environment variable is not set.";
                 SubmitToolOutputs "thread_1" "run_1"
                   [ {| tool_call_id := "call_1"; output := None |};
                     {| tool_call_id := "call_2"; output := None |} ] ];
      requested := 0;
      polled := 0 |}).
Proof.
  apply (@call_functions_without_credential table_lib offline_world the_session
           [search_call "call_1"; search_call "call_2"] "run_1" initial);
    reflexivity.
Defined.

(** X9.  [call_functions] makes at most one HTTP request per pending
    tool call, and never polls; when the credential is set and the batch
    is served, it makes exactly one per tool call. *)
Theorem call_functions_one_request_each `{PyLib}
        (w : World) (session : Session) (calls : list tool_call) (run_id : string)
        (st : State) :
  polled (snd (call_functions w session calls run_id st)) = polled st /\
  count is_http (trace (snd (call_functions w session calls run_id st)))
    <= count is_http (trace st) + length calls /\
  (truthy (env_SERPAPI w) = true ->
   raises (dispatch_loop w calls [] st) = false ->
   count is_http (trace (snd (call_functions w session calls run_id st)))
     = count is_http (trace st) + length calls).
Proof.
  destruct (dispatch_loop_trace w calls [] st) as (added & Htr & Hev & Hle & Hc & Hpol).
  unfold call_functions, bind, submit_tool_outputs, emit.
  destruct (dispatch_loop w calls [] st) as [[outs|e|] st1] eqn:Hloop; simpl in *.
  - rewrite Htr, !count_app. change (count is_http [SubmitToolOutputs _ _ _]) with 0.
    repeat split; [exact Hpol | lia |].
    intros Hcred _. rewrite (Hc eq_refl), Hcred. lia.
  - rewrite Htr, !count_app. repeat split; [exact Hpol | lia | discriminate].
  - exfalso. apply (dispatch_loop_settles w calls [] st). now rewrite Hloop.
Qed.

Lemma call_functions_one_request_each_witness :
  count is_http
    (trace (snd (call_functions (H:=table_lib) sandals_world the_session
                   [search_call "call_1"; search_call "call_2"] "run_1" initial)))
  = count is_http (trace initial) + 2.
Proof.
  apply (proj2 (proj2 (@call_functions_one_request_each table_lib sandals_world the_session
                         [search_call "call_1"; search_call "call_2"] "run_1" initial)));
    reflexivity.
Defined.

(** X10.  The batch stops at the first request that raises: the requests
    after it are never looked at, whatever they are. *)
Theorem batch_stops_at_first_failure `{PyLib}
        (w : World) (session : Session) (pre : list tool_call) (a : tool_call)
        (post : list tool_call) (run_id : string) (st : State) :
  raises (dispatch_loop w (pre ++ [a]) [] st) = true ->
  call_functions w session (pre ++ a :: post) run_id st =
  call_functions w session (pre ++ [a]) run_id st /\
  raises (call_functions w session (pre ++ a :: post) run_id st) = true.
Proof.
  intros Hr.
  assert (Hsplit : (pre ++ a :: post = (pre ++ [a]) ++ post)%list)
    by (now rewrite <- app_assoc).
  assert (Hloop : dispatch_loop w (pre ++ a :: post) [] st =
                  match dispatch_loop w (pre ++ [a]) [] st with
                  | (Raised e, st1) => (Raised e, st1)
                  | r => r
                  end).
  { rewrite Hsplit, dispatch_loop_app. unfold bind, raises in *.
    destruct (dispatch_loop w (pre ++ [a]) [] st) as [[outs|e|] st1];
      simpl in *; try discriminate; reflexivity. }
  unfold call_functions, bind. rewrite Hloop. unfold raises in *.
  destruct (dispatch_loop w (pre ++ [a]) [] st) as [[outs|e|] st1];
    simpl in *; try discriminate. split; reflexivity.
Qed.

Lemma batch_stops_at_first_failure_witness :
  call_functions (H:=table_lib) malformed_world the_session
                 ([search_call "call_1"] ++ search_call "call_2" :: [search_call "call_3"])
                 "run_1" initial =
  call_functions (H:=table_lib) malformed_world the_session
                 ([search_call "call_1"] ++ [search_call "call_2"]) "run_1" initial /\
  raises (call_functions (H:=table_lib) malformed_world the_session
            ([search_call "call_1"] ++ search_call "call_2" :: [search_call "call_3"])
            "run_1" initial) = true.
Proof.
  apply (@batch_stops_at_first_failure table_lib malformed_world the_session
           [search_call "call_1"] (search_call "call_2") [search_call "call_3"]
           "run_1" initial).
  reflexivity.
Defined.

(** ** What a query does and does not do *)

Lemma forallb_weaken {A : Type} (p q : A -> bool) (l : list A) :
  (forall x, p x = true -> q x = true) ->
  forallb p l = true -> forallb q l = true.
Proof.
  intros Hpq. induction l as [|x l IH]; simpl; [reflexivity|].
  intros Hp. apply andb_true_iff in Hp. destruct Hp as [Hx Hl].
  now rewrite (Hpq x Hx), IH.
Qed.

Lemma search_event_loop (e : event) : search_event e = true -> loop_event e = true.
Proof. destruct e; simpl; try discriminate; reflexivity. Qed.

Lemma search_event_addressed (thread_id run_id : string) (e : event) :
  search_event e = true -> addressed thread_id run_id e = true.
Proof. destruct e; simpl; try discriminate; reflexivity. Qed.

Lemma search_event_not_sleep (e : event) : search_event e = true -> is_sleep e = false.
Proof. destruct e; simpl; try discriminate; reflexivity. Qed.

Lemma search_event_not_poll (e : event) : search_event e = true -> is_poll e = false.
Proof. destruct e; simpl; try discriminate; reflexivity. Qed.

Section QueryEffects.

Context `{PyLib}.
Variable w : World.
Variable session : Session.

(** What a dispatch adds to the trace. *)
Lemma call_functions_trace (calls : list tool_call) (run_id : string) (st : State) :
  exists added,
    trace (snd (call_functions w session calls run_id st)) = (trace st ++ added)%list /\
    forallb loop_event added = true /\
    forallb (addressed (conversation_thread session) run_id) added = true /\
    count is_sleep added = 0 /\
    count is_poll added = 0 /\
    polled (snd (call_functions w session calls run_id st)) = polled st.
Proof.
  destruct (dispatch_loop_trace w calls [] st) as (added & Htr & Hev & _ & _ & Hpol).
  pose proof (forallb_weaken _ _ _ search_event_loop Hev) as Hloop.
  pose proof (forallb_weaken _ _ _
                (search_event_addressed (conversation_thread session) run_id) Hev) as Hadd.
  pose proof (count_none is_sleep _ added search_event_not_sleep Hev) as Hsl.
  pose proof (count_none is_poll _ added search_event_not_poll Hev) as Hpl.
  unfold call_functions, bind, submit_tool_outputs, emit.
  destruct (dispatch_loop w calls [] st) as [[outs|e|] st1]; simpl in *.
  - exists (added ++ [SubmitToolOutputs (conversation_thread session) run_id outs])%list.
    rewrite Htr, <- app_assoc, !forallb_app, !count_app, Hloop, Hadd, Hsl, Hpl.
    simpl. rewrite !String.eqb_refl. repeat split; auto.
  - exists added. repeat split; assumption.
  - exists added. repeat split; assumption.
Qed.

(** What the loop adds to the trace. *)
Lemma poll_loop_trace (fuel : nat) (run_id : string) (st : State) :
  exists o st' added,
    poll_loop w session fuel run_id st = (o, st') /\
    trace st' = (trace st ++ added)%list /\
    forallb loop_event added = true /\
    forallb (addressed (conversation_thread session) run_id) added = true /\
    count is_sleep added = count is_poll added /\
    polled st' = polled st + count is_poll added.
Proof.
  revert st. induction fuel as [|fuel IH]; intros st; simpl.
  - exists Running, st, []. rewrite app_nil_r. repeat split; auto.
  - unfold bind at 1. unfold poll at 1.
    set (r := runs_retrieve w (polled st)).
    set (st1 := {| trace := _; requested := _; polled := _ |}).
    unfold bind at 1.
    match goal with
    | |- context [ (if status r =? "requires_action" then ?a else ?b) st1 ] =>
      set (D := (if status r =? "requires_action" then a else b) st1)
    end.
    assert (HD : exists added,
               trace (snd D) = (trace st1 ++ added)%list /\
               forallb loop_event added = true /\
               forallb (addressed (conversation_thread session) run_id) added = true /\
               count is_sleep added = 0 /\
               count is_poll added = 0 /\
               polled (snd D) = polled st1).
    { subst D. destruct (status r =? "requires_action");
        [destruct (required_action r) as [tool_calls|];
         [apply call_functions_trace|]|];
        (exists []; simpl; rewrite app_nil_r; repeat split; auto). }
    destruct HD as (added1 & Htr1 & Hev1 & Had1 & Hsl1 & Hpl1 & Hpol1).
    clearbody D. destruct D as [[u|e|] st2]; simpl in Htr1, Hpol1.
    + destruct (status r =? "completed").
      * unfold bind, emit, lift.
        exists (match final_response_text (messages_list w) with
                | inl e => Raised e
                | inr reply => Returned reply
                end),
               {| trace := trace st2 ++ [MessagesList (conversation_thread session)];
                  requested := requested st2; polled := polled st2 |},
               ([Sleep 500; RunsRetrieve (conversation_thread session) run_id (status r)]
                  ++ added1 ++ [MessagesList (conversation_thread session)])%list.
        split; [destruct (final_response_text (messages_list w)); reflexivity|].
        cbn [trace polled]. rewrite Htr1, Hpol1. subst st1. cbn [trace polled].
        rewrite <- !app_assoc, !forallb_app, !count_app, Hev1, Had1, Hsl1, Hpl1.
        simpl. rewrite !String.eqb_refl. unfold count. simpl. repeat split; auto; lia.
      * destruct (IH st2) as (o & st' & added2 & Hrun & Htr2 & Hev2 & Had2 & Hsl2 & Hpol2).
        exists o, st',
               ([Sleep 500; RunsRetrieve (conversation_thread session) run_id (status r)]
                  ++ added1 ++ added2)%list.
        split; [exact Hrun|].
        rewrite Htr2, Hpol2, Htr1, Hpol1. subst st1. cbn [trace polled].
        rewrite <- !app_assoc, !forallb_app, !count_app, Hev1, Had1, Hsl1, Hpl1, Hev2, Had2.
        simpl. rewrite !String.eqb_refl. unfold count. simpl. repeat split; auto; lia.
    + exists (Raised e), st2,
             ([Sleep 500; RunsRetrieve (conversation_thread session) run_id (status r)]
                ++ added1)%list.
      split; [reflexivity|].
      rewrite Htr1, Hpol1. subst st1. cbn [trace polled].
      rewrite <- !app_assoc, !forallb_app, !count_app, Hev1, Had1, Hsl1, Hpl1.
      simpl. rewrite !String.eqb_refl. unfold count. simpl. repeat split; auto; lia.
    + exists Running, st2,
             ([Sleep 500; RunsRetrieve (conversation_thread session) run_id (status r)]
                ++ added1)%list.
      split; [reflexivity|].
      rewrite Htr1, Hpol1. subst st1. cbn [trace polled].
      rewrite <- !app_assoc, !forallb_app, !count_app, Hev1, Had1, Hsl1, Hpl1.
      simpl. rewrite !String.eqb_refl. unfold count. simpl. repeat split; auto; lia.
Qed.

(** A dispatch that does not raise submits one batch and moves no poll
    cursor. *)
Lemma call_functions_served (calls : list tool_call) (run_id : string) (st : State) :
  raises (call_functions w session calls run_id st) = false ->
  exists outs st',
    call_functions w session calls run_id st = (Returned tt, st') /\
    submissions (trace st') =
      (submissions (trace st) ++ [(conversation_thread session, run_id, outs)])%list /\
    polled st' = polled st.
Proof.
  unfold raises, call_functions, bind, submit_tool_outputs, emit.
  pose proof (dispatch_loop_settles w calls [] st) as Hset.
  pose proof (dispatch_loop_polled w calls [] st) as Hpol.
  pose proof (dispatch_loop_submits_nothing w calls [] st) as Hsub.
  destruct (dispatch_loop w calls [] st) as [[outs|e|] st1]; simpl in *.
  - intros _. exists outs. eexists. split; [reflexivity|]. simpl.
    rewrite submissions_app, Hsub. auto.
  - discriminate.
  - congruence.
Qed.

(** Once a poll observes [completed], the loop lists the messages and
    ends with what the newest one holds. *)
Lemma poll_loop_reaches_completed (n fuel : nat) (st : State) :
  n < fuel ->
  (forall j, j < n -> (status (runs_retrieve w (polled st + j)) =? "completed") = false) ->
  (status (runs_retrieve w (polled st + n)) =? "completed") = true ->
  dispatch_never_raises w session ->
  exists st',
    poll_loop w session fuel (runs_create w) st =
    (match final_response_text (messages_list w) with
     | inl e => Raised e
     | inr reply => Returned reply
     end, st') /\
    polled st' = polled st + S n /\
    exists before, trace st' = (before ++ [MessagesList (conversation_thread session)])%list.
Proof.
  revert fuel st. induction n as [|n IH]; intros fuel st Hfuel Hbefore Hdone Hquiet;
    (destruct fuel as [|fuel]; [lia|]); simpl;
    unfold bind at 1; unfold poll at 1;
    set (r := runs_retrieve w (polled st));
    set (st1 := {| trace := _; requested := _; polled := _ |});
    unfold bind at 1.
  - rewrite Nat.add_0_r in Hdone. fold r in Hdone. rewrite Hdone.
    assert (Hreq : (status r =? "requires_action") = false).
    { apply String.eqb_eq in Hdone. now rewrite Hdone. }
    rewrite Hreq. unfold ret at 1. unfold bind, emit, lift.
    eexists. split; [destruct (final_response_text (messages_list w)); reflexivity|].
    subst st1. simpl. split; [lia|]. eexists. reflexivity.
  - assert (Hnot : (status r =? "completed") = false).
    { specialize (Hbefore 0). rewrite Nat.add_0_r in Hbefore. apply Hbefore. lia. }
    rewrite Hnot.
    assert (Hnext : forall st2, polled st2 = S (polled st) ->
              exists st',
                poll_loop w session fuel (runs_create w) st2 =
                (match final_response_text (messages_list w) with
                 | inl e => Raised e
                 | inr reply => Returned reply
                 end, st') /\
                polled st' = polled st + S (S n) /\
                exists before,
                  trace st' = (before ++ [MessagesList (conversation_thread session)])%list).
    { intros st2 Hp.
      destruct (IH fuel st2) as (st' & Hrun & Hpol & Hlast);
        [lia | | | exact Hquiet | ].
      - intros j Hj. rewrite Hp.
        replace (S (polled st) + j) with (polled st + S j) by lia.
        apply Hbefore. lia.
      - rewrite Hp. replace (S (polled st) + n) with (polled st + S n) by lia.
        exact Hdone.
      - exists st'. split; [exact Hrun|]. split; [lia | exact Hlast]. }
    destruct (status r =? "requires_action") eqn:Hreq.
    + destruct (Hquiet (polled st) st1 Hreq) as (calls & Hcalls & Hr).
      fold r in Hcalls. rewrite Hcalls.
      destruct (call_functions_quiet w session calls _ st1 Hr) as (st2 & -> & Hp).
      apply Hnext. rewrite Hp. reflexivity.
    + unfold ret at 1. apply Hnext. reflexivity.
Qed.

(** With no poll observing [requires_action], the loop sleeps, polls and
    lists the messages, and nothing else. *)
Lemma poll_loop_without_action (fuel : nat) (run_id : string) (st : State) :
  (forall k, (status (runs_retrieve w k) =? "requires_action") = false) ->
  exists o st',
    poll_loop w session fuel run_id st = (o, st') /\
    requested st' = requested st /\
    submissions (trace st') = submissions (trace st) /\
    count is_http (trace st') = count is_http (trace st) /\
    count is_print (trace st') = count is_print (trace st).
Proof.
  intros Hnone. revert st. induction fuel as [|fuel IH]; intros st; simpl.
  - exists Running, st. auto.
  - unfold bind at 1. unfold poll at 1.
    rewrite (Hnone (polled st)). unfold bind at 1. unfold ret at 1.
    destruct (status (runs_retrieve w (polled st)) =? "completed").
    + unfold bind, emit, lift.
      exists (match final_response_text (messages_list w) with
              | inl e => Raised e
              | inr reply => Returned reply
              end).
      eexists. split; [destruct (final_response_text (messages_list w)); reflexivity|].
      cbn [trace requested]. rewrite !submissions_app, !count_app.
      unfold count. simpl. rewrite !app_nil_r. repeat split; lia.
    + match goal with |- context [poll_loop w session fuel run_id ?s] =>
        destruct (IH s) as (o & st' & Hrun & Hreq & Hsub & Hhttp & Hprint)
      end.
      exists o, st'. split; [exact Hrun|].
      rewrite Hreq, Hsub, Hhttp, Hprint. cbn [trace requested].
      rewrite !submissions_app, !count_app.
      unfold count. simpl. rewrite !app_nil_r. repeat split; lia.
Qed.

(** While no dispatch raises, the loop submits one batch for every poll
    that observed [requires_action]. *)
Lemma poll_loop_submissions (fuel : nat) (st : State) :
  dispatch_never_raises w session ->
  exists o st' n,
    poll_loop w session fuel (runs_create w) st = (o, st') /\
    polled st' = polled st + n /\
    length (submissions (trace st')) =
    length (submissions (trace st)) + requires_action_polls w (polled st) n.
Proof.
  intros Hquiet. revert st. induction fuel as [|fuel IH]; intros st; simpl.
  - exists Running, st, 0. simpl. repeat split; lia.
  - unfold bind at 1. unfold poll at 1.
    set (r := runs_retrieve w (polled st)).
    set (st1 := {| trace := _; requested := _; polled := _ |}).
    unfold bind at 1.
    assert (HD : exists st2,
               (if status r =? "requires_action"
                then match required_action r with
                     | Some tool_calls => call_functions w session tool_calls (runs_create w)
                     | None => raise (AttributeError
                         "'NoneType' object has no attribute 'submit_tool_outputs'")
                     end
                else ret tt) st1 = (Returned tt, st2) /\
               polled st2 = S (polled st) /\
               length (submissions (trace st2)) =
               length (submissions (trace st)) +
               (if status r =? "requires_action" then 1 else 0)).
    { destruct (status r =? "requires_action") eqn:Hreq.
      - destruct (Hquiet (polled st) st1 Hreq) as (calls & Hcalls & Hr).
        fold r in Hcalls. rewrite Hcalls.
        destruct (call_functions_served calls _ st1 Hr) as (outs & st2 & -> & Hsub & Hp).
        exists st2. split; [reflexivity|]. split; [exact Hp|].
        rewrite Hsub. subst st1. cbn [trace].
        rewrite submissions_app, !length_app. simpl. lia.
      - exists st1. split; [reflexivity|]. split; [reflexivity|].
        subst st1. cbn [trace]. rewrite submissions_app, length_app. simpl. lia. }
    destruct HD as (st2 & -> & Hp2 & Hs2).
    destruct (status r =? "completed").
    + unfold bind, emit, lift.
      exists (match final_response_text (messages_list w) with
              | inl e => Raised e
              | inr reply => Returned reply
              end).
      eexists. exists 1.
      split; [destruct (final_response_text (messages_list w)); reflexivity|].
      cbn [trace polled requires_action_polls]. fold r.
      rewrite submissions_app, length_app, Hs2, Hp2. simpl. split; lia.
    + destruct (IH st2) as (o & st' & n & Hrun & Hpol & Hsub).
      exists o, st', (S n). split; [exact Hrun|].
      rewrite Hpol, Hsub, Hs2, Hp2. cbn [requires_action_polls]. fold r.
      split; lia.
Qed.

End QueryEffects.

Lemma count_one (p : event -> bool) (e : event) :
  count p [e] = if p e then 1 else 0.
Proof. unfold count. simpl. now destruct (p e). Qed.

Lemma no_text_reply_error (data : list message) :
  no_text_reply data = true ->
  exists e, final_response_text data = inl e /\
            exists msg, e = IndexError msg \/ e = AttributeError msg.
Proof.
  unfold no_text_reply, final_response_text.
  destruct data as [|m older]; [intros _; eauto|].
  destruct (content m) as [|[value|file_id] blocks]; [eauto | discriminate | eauto].
Qed.

(** X11.  If some poll observes [completed] and no dispatch before it
    raises, [process_query] returns at the first such poll, with the text
    of the first content block of the newest message of the thread;
    polling stops there, whatever number of iterations remained. *)
Theorem process_query_returns_reply `{PyLib}
        (w : World) (session : Session) (user_query : string)
        (interaction_history : list (string * string)) (n fuel : nat) (st : State)
        (reply : string) (blocks : list content_block) (older : list message) :
  n < fuel ->
  (forall j, j < n -> (status (runs_retrieve w (polled st + j)) =? "completed") = false) ->
  (status (runs_retrieve w (polled st + n)) =? "completed") = true ->
  dispatch_never_raises w session ->
  messages_list w = {| content := TextBlock reply :: blocks |} :: older ->
  exists st',
    process_query w session user_query interaction_history fuel st = (Returned reply, st') /\
    polled st' = polled st + S n.
Proof.
  intros Hfuel Hbefore Hdone Hquiet Hmsgs.
  unfold process_query, bind, emit. cbn beta iota.
  match goal with |- context [poll_loop w session fuel (runs_create w) ?s] =>
    destruct (poll_loop_reaches_completed w session n fuel s Hfuel Hbefore Hdone Hquiet)
      as (st' & Hrun & Hpol & _)
  end.
  rewrite Hmsgs in Hrun. simpl in Hrun.
  exists st'. split; [exact Hrun | exact Hpol].
Qed.

Lemma sandals_dispatch_never_raises :
  dispatch_never_raises (H:=table_lib) sandals_world the_session.
Proof.
  intros k st Hreq.
  destruct k as [|[|[|[|[|[|k]]]]]]; try discriminate Hreq.
  eexists. split; reflexivity.
Defined.

Lemma process_query_returns_reply_witness :
  exists st',
    process_query (H:=table_lib) sandals_world the_session "gladiator sandals" [] 9 initial =
      (Returned "Similar sandals sell for $10 to $30.", st') /\
    polled st' = polled initial + 5.
Proof.
  apply (@process_query_returns_reply table_lib sandals_world the_session
           "gladiator sandals" [] 4 9 initial
           "Similar sandals sell for $10 to $30." [] []).
  - lia.
  - intros j Hj. do 4 (destruct j as [|j]; [reflexivity|]). lia.
  - reflexivity.
  - exact sandals_dispatch_never_raises.
  - reflexivity.
Defined.

(** X12.  If the first poll that observes [completed] finds the thread
    listing empty, or its newest message without content or opening with
    an image, [process_query] does not return: it raises [IndexError] or
    [AttributeError] after listing the messages. *)
Theorem process_query_without_text_reply_raises `{PyLib}
        (w : World) (session : Session) (user_query : string)
        (interaction_history : list (string * string)) (n fuel : nat) (st : State) :
  n < fuel ->
  (forall j, j < n -> (status (runs_retrieve w (polled st + j)) =? "completed") = false) ->
  (status (runs_retrieve w (polled st + n)) =? "completed") = true ->
  dispatch_never_raises w session ->
  no_text_reply (messages_list w) = true ->
  exists e st',
    process_query w session user_query interaction_history fuel st = (Raised e, st') /\
    (exists msg, e = IndexError msg \/ e = AttributeError msg) /\
    exists before, trace st' = (before ++ [MessagesList (conversation_thread session)])%list.
Proof.
  intros Hfuel Hbefore Hdone Hquiet Hmsgs.
  destruct (no_text_reply_error _ Hmsgs) as (e & He & Hclass).
  unfold process_query, bind, emit. cbn beta iota.
  match goal with |- context [poll_loop w session fuel (runs_create w) ?s] =>
    destruct (poll_loop_reaches_completed w session n fuel s Hfuel Hbefore Hdone Hquiet)
      as (st' & Hrun & _ & Hlast)
  end.
  rewrite He in Hrun.
  exists e, st'. split; [exact Hrun|]. split; [exact Hclass | exact Hlast].
Qed.

Lemma image_reply_never_dispatches :
  dispatch_never_raises (H:=table_lib) image_reply_world the_session.
Proof. intros k st Hreq. discriminate Hreq. Defined.

Lemma process_query_without_text_reply_raises_witness :
  exists e st',
    process_query (H:=table_lib) image_reply_world the_session "gladiator sandals" []
                  3 initial = (Raised e, st') /\
    (exists msg, e = IndexError msg \/ e = AttributeError msg) /\
    exists before, trace st' = (before ++ [MessagesList "thread_1"])%list.
Proof.
  apply (@process_query_without_text_reply_raises table_lib image_reply_world the_session
           "gladiator sandals" [] 0 3 initial).
  - lia.
  - intros j Hj. lia.
  - reflexivity.
  - exact image_reply_never_dispatches.
  - reflexivity.
Defined.

(** X13.  If no poll observes [requires_action], [process_query] makes
    no HTTP request, prints nothing and submits nothing, however long it
    polls. *)
Theorem process_query_without_action_only_polls `{PyLib}
        (w : World) (session : Session) (user_query : string)
        (interaction_history : list (string * string)) (fuel : nat) (st : State) :
  (forall k, (status (runs_retrieve w k) =? "requires_action") = false) ->
  exists o st',
    process_query w session user_query interaction_history fuel st = (o, st') /\
    requested st' = requested st /\
    submissions (trace st') = submissions (trace st) /\
    count is_http (trace st') = count is_http (trace st) /\
    count is_print (trace st') = count is_print (trace st).
Proof.
  intros Hnone. unfold process_query, bind, emit. cbn beta iota.
  match goal with |- context [poll_loop w session fuel (runs_create w) ?s] =>
    destruct (poll_loop_without_action w session fuel (runs_create w) s Hnone)
      as (o & st' & Hrun & Hreq & Hsub & Hhttp & Hprint)
  end.
  exists o, st'. split; [exact Hrun|].
  rewrite Hreq, Hsub, Hhttp, Hprint. cbn [trace requested].
  rewrite !submissions_app, !count_app. unfold count. simpl.
  rewrite !app_nil_r. repeat split; lia.
Qed.

Lemma process_query_without_action_only_polls_witness :
  exists o st',
    process_query (H:=table_lib) unreachable_world the_session "gladiator sandals" []
                  6 initial = (o, st') /\
    requested st' = requested initial /\
    submissions (trace st') = submissions (trace initial) /\
    count is_http (trace st') = count is_http (trace initial) /\
    count is_print (trace st') = count is_print (trace initial).
Proof.
  apply (@process_query_without_action_only_polls table_lib unreachable_world the_session
           "gladiator sandals" [] 6 initial).
  intros k. reflexivity.
Defined.

(** X14.  While no dispatch raises, [process_query] submits exactly one
    batch of tool outputs for every poll that observed [requires_action],
    and none otherwise. *)
Theorem process_query_one_submission_per_action `{PyLib}
        (w : World) (session : Session) (user_query : string)
        (interaction_history : list (string * string)) (fuel : nat) (st : State) :
  dispatch_never_raises w session ->
  exists o st' n,
    process_query w session user_query interaction_history fuel st = (o, st') /\
    polled st' = polled st + n /\
    length (submissions (trace st')) =
    length (submissions (trace st)) + requires_action_polls w (polled st) n.
Proof.
  intros Hquiet. unfold process_query, bind, emit. cbn beta iota.
  match goal with |- context [poll_loop w session fuel (runs_create w) ?s] =>
    destruct (poll_loop_submissions w session fuel s Hquiet)
      as (o & st' & n & Hrun & Hpol & Hsub)
  end.
  exists o, st', n. split; [exact Hrun|]. split; [exact Hpol|].
  rewrite Hsub. cbn [trace polled]. rewrite !submissions_app. simpl.
  rewrite !app_nil_r. reflexivity.
Qed.

Lemma process_query_one_submission_per_action_witness :
  exists o st' n,
    process_query (H:=table_lib) sandals_world the_session "gladiator sandals" []
                  9 initial = (o, st') /\
    polled st' = polled initial + n /\
    length (submissions (trace st')) =
    length (submissions (trace initial)) + requires_action_polls sandals_world (polled initial) n.
Proof.
  apply (@process_query_one_submission_per_action table_lib sandals_world the_session
           "gladiator sandals" [] 9 initial).
  exact sandals_dispatch_never_raises.
Defined.

(** X15.  [process_query] first posts the user's text as a user message
    on the shared thread, then creates one run with the fixed
    instructions; everything after is the poll loop (sleeps, polls,
    searches, submissions, one listing): no second message is posted and
    no second run is created, whatever the outcome. *)
Theorem process_query_posts_once_then_polls `{PyLib}
        (w : World) (session : Session) (user_query : string)
        (interaction_history : list (string * string)) (fuel : nat) (st : State) :
  exists o st' added,
    process_query w session user_query interaction_history fuel st = (o, st') /\
    trace st' =
      (trace st ++
       MessagesCreate (conversation_thread session) "user" user_query ::
       RunsCreate (conversation_thread session) (ebay_price_validation_assistant session)
                  "The user needs help validating the price of an item on eBay." ::
       added)%list /\
    forallb loop_event added = true.
Proof.
  unfold process_query, bind, emit. cbn beta iota.
  match goal with |- context [poll_loop w session fuel (runs_create w) ?s] =>
    destruct (poll_loop_trace w session fuel (runs_create w) s)
      as (o & st' & added & Hrun & Htr & Hev & _)
  end.
  exists o, st', added. split; [exact Hrun|]. split; [|exact Hev].
  rewrite Htr. cbn [trace]. now rewrite <- !app_assoc.
Qed.

(** X16.  [process_query] sleeps 500 ms before every poll: along any
    run, the sleeps it adds to the trace are as many as the polls, and as
    many as the answers the engine gave to polls. *)
Theorem process_query_sleeps_once_per_poll `{PyLib}
        (w : World) (session : Session) (user_query : string)
        (interaction_history : list (string * string)) (fuel : nat) (st : State) :
  exists o st' k,
    process_query w session user_query interaction_history fuel st = (o, st') /\
    polled st' = polled st + k /\
    count is_poll (trace st') = count is_poll (trace st) + k /\
    count is_sleep (trace st') = count is_sleep (trace st) + k.
Proof.
  unfold process_query, bind, emit. cbn beta iota.
  match goal with |- context [poll_loop w session fuel (runs_create w) ?s] =>
    destruct (poll_loop_trace w session fuel (runs_create w) s)
      as (o & st' & added & Hrun & Htr & _ & _ & Hsl & Hpol)
  end.
  exists o, st', (count is_poll added). split; [exact Hrun|].
  rewrite Htr, Hpol. cbn [trace polled]. rewrite !count_app, Hsl.
  rewrite !count_one. simpl. repeat split; lia.
Qed.

(** X17.  Every engine call of [process_query] is addressed to the
    shared conversation thread, and every poll and every submission to
    the run the call created. *)
Theorem process_query_addresses_its_thread_and_run `{PyLib}
        (w : World) (session : Session) (user_query : string)
        (interaction_history : list (string * string)) (fuel : nat) (st : State) :
  exists o st' added,
    process_query w session user_query interaction_history fuel st = (o, st') /\
    trace st' = (trace st ++ added)%list /\
    forallb (addressed (conversation_thread session) (runs_create w)) added = true.
Proof.
  unfold process_query, bind, emit. cbn beta iota.
  match goal with |- context [poll_loop w session fuel (runs_create w) ?s] =>
    destruct (poll_loop_trace w session fuel (runs_create w) s)
      as (o & st' & added & Hrun & Htr & _ & Had & _)
  end.
  exists o, st'. eexists. split; [exact Hrun|]. split.
  - rewrite Htr. cbn [trace]. rewrite <- !app_assoc. reflexivity.
  - simpl. rewrite !String.eqb_refl. exact Had.
Qed.

(** X18.  A poll, at whatever iteration, that observes
    [requires_action] on a run without a required action makes
    [process_query] raise [AttributeError] at that poll, with nothing
    submitted for it. *)
Theorem process_query_action_without_details_raises `{PyLib}
        (w : World) (session : Session) (user_query : string)
        (interaction_history : list (string * string)) (n m : nat) (st st_n : State) :
  process_query w session user_query interaction_history n st = (Running, st_n) ->
  (status (runs_retrieve w (polled st_n)) =? "requires_action") = true ->
  required_action (runs_retrieve w (polled st_n)) = None ->
  exists msg st',
    process_query w session user_query interaction_history (n + S m) st =
      (Raised (AttributeError msg), st') /\
    polled st' = S (polled st_n) /\
    submissions (trace st') = submissions (trace st_n).
Proof.
  unfold process_query, bind, emit. cbn beta iota. intros Hrun Hreq Hnone.
  rewrite (poll_loop_extend w session n (S m) _ _ _ Hrun).
  rewrite poll_loop_step, Hreq, Hnone. eexists. eexists. split; [reflexivity|].
  cbn [trace polled]. rewrite !submissions_app. simpl. rewrite !app_nil_r. auto.
Qed.

Lemma process_query_action_without_details_raises_witness :
  exists msg st',
    process_query (H:=table_lib) late_no_action_world the_session "gladiator sandals" []
                  (2 + S 3) initial = (Raised (AttributeError msg), st') /\
    polled st' = 3 /\
    submissions (trace st') = [].
Proof.
  apply (@process_query_action_without_details_raises table_lib late_no_action_world
           the_session "gladiator sandals" [] 2 3 initial
           {| trace := [ MessagesCreate "thread_1" "user" "gladiator sandals";
                         RunsCreate "thread_1" "asst_1"
                           "The user needs help validating the price of an item on eBay.";
                         Sleep 500; RunsRetrieve "thread_1" "run_1" "queued";
                         Sleep 500; RunsRetrieve "thread_1" "run_1" "in_progress" ];
              requested := 0; polled := 2 |});
    reflexivity.
Defined.

(** X19.  With the conversation credential set and the client
    constructed, start-up creates the assistant, then the thread, then
    launches; the query that follows runs on the thread and with the
    assistant created at start-up, and on the run created for it. *)
Theorem main_serves_on_created_thread `{PyLib}
        (w : World) (user_query : string) (fuel : nat) (st : State) :
  truthy (env_OPENAI_API_KEY w) = true ->
  OpenAI_new (env_OPENAI_API_KEY w) = None ->
  exists o st' added,
    main w user_query fuel st = (o, st') /\
    trace st' =
      (trace st ++
       [ AssistantsCreate "eBay Price Validator"; ThreadsCreate; Launch;
         MessagesCreate (threads_create w) "user" user_query;
         RunsCreate (threads_create w) (assistants_create w)
                    "The user needs help validating the price of an item on eBay." ] ++
       added)%list /\
    forallb loop_event added = true /\
    forallb (addressed (threads_create w) (runs_create w)) added = true.
Proof.
  intros Hkey Hnew. unfold main, module_init. rewrite Hnew, Hkey.
  unfold process_query, bind, emit, ret. cbn -[poll_loop].
  match goal with |- context [poll_loop w ?s fuel (runs_create w) ?s0] =>
    destruct (poll_loop_trace w s fuel (runs_create w) s0)
      as (o & st' & added & Hrun & Htr & Hev & Had & _)
  end.
  exists o, st', added. split; [exact Hrun|]. split; [|split; assumption].
  rewrite Htr. cbn [trace]. now rewrite <- !app_assoc.
Qed.

Lemma main_serves_on_created_thread_witness :
  exists o st' added,
    main (H:=table_lib) sandals_world "gladiator sandals" 9 initial = (o, st') /\
    trace st' =
      ([] ++
       [ AssistantsCreate "eBay Price Validator"; ThreadsCreate; Launch;
         MessagesCreate "thread_1" "user" "gladiator sandals";
         RunsCreate "thread_1" "asst_1"
                    "The user needs help validating the price of an item on eBay." ] ++
       added)%list /\
    forallb loop_event added = true /\
    forallb (addressed "thread_1" "run_1") added = true.
Proof.
  apply (@main_serves_on_created_thread table_lib sandals_world "gladiator sandals" 9 initial);
    reflexivity.
Defined.

(** ** Image upload *)

(** X20.  [upload_file] returns exactly when the file can be read, the
    model's response has a first choice and that choice carries text.  It
    then returns the fixed heading followed by that text, together with
    the path of the uploaded file, after one read and one model call that
    presents the Base64 of the bytes read as a PNG data URL, with the
    fixed prompt and a ceiling of 300 tokens. *)
Theorem upload_file_returns_iff
        (o : Upload.Outside) (file_name : string) (tr tr' : list Upload.vision_event)
        (result : string * string) :
  Upload.upload_file o file_name tr = (inr result, tr') <->
  exists file_content choice rest product_list,
    Upload.read_bytes o file_name = inr file_content /\
    Upload.chat_completions_create o
      ("data:image/png;base64," ++ Upload.b64encode o file_content) = choice :: rest /\
    Upload.message_content choice = Some product_list /\
    result = ("The following similar products were found on eBay:" ++ product_list,
              file_name) /\
    tr' = (tr ++ [ Upload.OpenRead file_name;
                   Upload.ChatCompletionsCreate
                     "gpt-4-vision-preview" Upload.prompt
                     ("data:image/png;base64," ++ Upload.b64encode o file_content) 300 ])%list.
Proof.
  unfold Upload.upload_file, Upload.analyse_image. split.
  - destruct (Upload.read_bytes o file_name) as [msg|file_content]; [discriminate|].
    destruct (Upload.chat_completions_create o _) as [|choice rest] eqn:Hchoices;
      [discriminate|].
    destruct (Upload.message_content choice) as [product_list|] eqn:Hcontent;
      [|discriminate].
    intros Heq. injection Heq as <- <-.
    exists file_content, choice, rest, product_list.
    rewrite <- app_assoc. repeat split; auto.
  - intros (file_content & choice & rest & product_list & -> & -> & -> & -> & ->).
    now rewrite <- app_assoc.
Qed.

(** X21.  When the uploaded file cannot be read, [upload_file] ends with
    the [OSError] of [open] and the model is not called. *)
Theorem upload_file_unreadable
        (o : Upload.Outside) (file_name msg : string) (tr : list Upload.vision_event) :
  Upload.read_bytes o file_name = inl msg ->
  fst (Upload.upload_file o file_name tr) = inl (Upload.OSError msg) /\
  Upload.model_calls (snd (Upload.upload_file o file_name tr)) = Upload.model_calls tr.
Proof.
  intros Hread. unfold Upload.upload_file. rewrite Hread. simpl.
  split; [reflexivity|]. unfold Upload.model_calls.
  rewrite filter_app. simpl. apply app_nil_r.
Qed.

Lemma upload_file_unreadable_witness :
  fst (Upload.upload_file Upload.mug_outside "/tmp/gone.png" []) =
    inl (Upload.OSError "No such file or directory") /\
  Upload.model_calls (snd (Upload.upload_file Upload.mug_outside "/tmp/gone.png" [])) =
    Upload.model_calls [].
Proof.
  apply (upload_file_unreadable Upload.mug_outside "/tmp/gone.png"
           "No such file or directory" []).
  reflexivity.
Defined.

(** X22.  When the model's first choice carries no text, [analyse_image]
    returns [None] without complaint, and [upload_file], which
    concatenates the heading with it, raises [TypeError] after the model
    call was made. *)
Theorem upload_file_without_text
        (o : Upload.Outside) (file_name : string) (file_content : list Byte.byte)
        (choice : Upload.chat_choice) (rest : list Upload.chat_choice)
        (tr : list Upload.vision_event) :
  Upload.read_bytes o file_name = inr file_content ->
  Upload.chat_completions_create o
    ("data:image/png;base64," ++ Upload.b64encode o file_content) = choice :: rest ->
  Upload.message_content choice = None ->
  fst (Upload.analyse_image o (Upload.b64encode o file_content) tr) = inr None /\
  (exists msg,
      fst (Upload.upload_file o file_name tr) = inl (Upload.Exn (TypeError msg))) /\
  length (Upload.model_calls (snd (Upload.upload_file o file_name tr))) =
    S (length (Upload.model_calls tr)).
Proof.
  intros Hread Hchoices Hnone.
  unfold Upload.upload_file, Upload.analyse_image. rewrite Hread, Hchoices, Hnone.
  simpl. split; [reflexivity|]. split; [eauto|]. unfold Upload.model_calls.
  rewrite !filter_app, !length_app. simpl. lia.
Qed.

Lemma upload_file_without_text_witness :
  fst (Upload.analyse_image Upload.mute_outside "iVBORw==" []) = inr None /\
  (exists msg,
      fst (Upload.upload_file Upload.mute_outside "/tmp/mug.png" []) =
        inl (Upload.Exn (TypeError msg))) /\
  length (Upload.model_calls (snd (Upload.upload_file Upload.mute_outside "/tmp/mug.png" []))) =
    S (length (Upload.model_calls [])).
Proof.
  apply (upload_file_without_text Upload.mute_outside "/tmp/mug.png"
           [Byte.x89; Byte.x50; Byte.x4e; Byte.x47]
           {| Upload.message_content := None |} [] []);
    reflexivity.
Defined.

(** X23.  When the model's response has no choice at all,
    [analyse_image] raises [IndexError], and so does [upload_file]. *)
Theorem upload_file_without_choice
        (o : Upload.Outside) (file_name : string) (file_content : list Byte.byte)
        (tr : list Upload.vision_event) :
  Upload.read_bytes o file_name = inr file_content ->
  Upload.chat_completions_create o
    ("data:image/png;base64," ++ Upload.b64encode o file_content) = [] ->
  exists msg,
    fst (Upload.analyse_image o (Upload.b64encode o file_content) tr) = inl (IndexError msg) /\
    fst (Upload.upload_file o file_name tr) = inl (Upload.Exn (IndexError msg)).
Proof.
  intros Hread Hchoices.
  unfold Upload.upload_file, Upload.analyse_image. rewrite Hread, Hchoices.
  simpl. eauto.
Qed.

Lemma upload_file_without_choice_witness :
  exists msg,
    fst (Upload.analyse_image Upload.silent_outside "iVBORw==" []) = inl (IndexError msg) /\
    fst (Upload.upload_file Upload.silent_outside "/tmp/mug.png" []) =
      inl (Upload.Exn (IndexError msg)).
Proof.
  apply (upload_file_without_choice Upload.silent_outside "/tmp/mug.png"
           [Byte.x89; Byte.x50; Byte.x4e; Byte.x47] []);
    reflexivity.
Defined.
